(** * Newsletter pipeline: a shallow embedding of [main.py]

    The program is a Python script: [NewsletterAgents.manual_search] wraps
    one call of the search tool, [NewsletterAgents.run_pipeline] runs two
    searches, renders their results into one digest string and threads
    that digest and the answers of four agents through four prompts, and
    the [__main__] block guards the start-up with an interactive gate.

    Conventions of the embedding.
    - A Python [str] is a [string]; one [ascii] stands for one character
      (the strings of the model range over the code points below 256).
    - A dynamically typed Python value is a [pyval]; an operation that
      Python can refuse on a value of the wrong type returns a [fallible].
    - The search tool and the agents are outside the program: they are
      variables of the section, arbitrary functions over an arbitrary
      world state, which may answer or raise.  An exception of the model
      stands for an instance of Python's [Exception].
    - Standard-output narration ([print]) is left out.  An expression
      that the source evaluates only to narrate is kept where its
      evaluation can raise: the length of [tool_calls], and every value
      that is rendered into a narrated text.
    - Rendering a value as text can raise: [str] refuses an integer of
      more than 4300 digits (the interpreter's default limit), and so
      does the [repr] of a list or a dict holding one. *)

From stdpp Require Import gmap strings list fin_maps.
From Stdlib Require Import ZArith DecimalString Ascii.

Set Warnings "-register-all".
Open Scope string_scope.
Open Scope list_scope.
Open Scope nat_scope.

(** ** Python values *)

Inductive pyval :=
| PNone
| PBool (b : bool)
| PInt (z : Z)
| PStr (s : string)
| PList (l : list pyval)
| PDict (d : gmap string pyval).

(** An exception: its class and the text [str(e)] gives. *)
Record exn := Exn { exn_class : string; exn_msg : string }.

Inductive fallible (A : Type) :=
| Ok (a : A)
| Raise (e : exn).
Arguments Ok {A} a.
Arguments Raise {A} e.

#[export] Instance fallible_ret : MRet fallible := fun A a => Ok a.
#[export] Instance fallible_bind : MBind fallible := fun A B f r =>
  match r with
  | Ok a => f a
  | Raise e => Raise e
  end.

Definition is_ok {A} (r : fallible A) : bool :=
  match r with Ok _ => true | Raise _ => false end.

(** ** Strings *)

(** The newline character, written [\n] in the source. *)
Definition nl : string := String (ascii_of_nat 10) "".

(** [str(n)] of a non-negative and of an arbitrary integer. *)
Definition str_nat (n : nat) : string := NilEmpty.string_of_uint (Nat.to_uint n).
Definition str_Z (z : Z) : string := NilEmpty.string_of_int (Z.to_int z).

(** [s[:n]] on a string. *)
Definition str_take (n : nat) (s : string) : string := String.substring 0 n s.

(** [needle in hay]. *)
Definition str_contains (needle hay : string) : bool :=
  match String.index 0 needle hay with
  | Some _ => true
  | None => false
  end.

(** [s.startswith(p)]. *)
Definition startswith (p s : string) : bool := String.prefix p s.

(** [c * n]: the string of [n] copies of one character. *)
Fixpoint str_repeat (c : ascii) (n : nat) : string :=
  match n with
  | O => ""
  | S k => String c (str_repeat c k)
  end.

(** [str.lower] on the code points below 256: the ASCII capitals and the
    Latin-1 capitals (192 to 222 without the multiplication sign 215) move
    up by 32. *)
Definition lower_char (c : ascii) : ascii :=
  let n := nat_of_ascii c in
  if ((65 <=? n) && (n <=? 90))%nat
     || ((192 <=? n) && (n <=? 222) && negb (n =? 215))%nat
  then ascii_of_nat (n + 32)
  else c.

Fixpoint lower (s : string) : string :=
  match s with
  | EmptyString => EmptyString
  | String c rest => String (lower_char c) (lower rest)
  end.

(** [sep.join(parts)]. *)
Fixpoint join (sep : string) (parts : list string) : string :=
  match parts with
  | [] => ""
  | [p] => p
  | p :: rest => p +:+ sep +:+ join sep rest
  end.

(** ** Operations on dynamically typed values *)

(** [type(v).__name__]. *)
Definition type_name (v : pyval) : string :=
  match v with
  | PNone => "NoneType"
  | PBool _ => "bool"
  | PInt _ => "int"
  | PStr _ => "str"
  | PList _ => "list"
  | PDict _ => "dict"
  end.

Definition AttributeError (v : pyval) (attr : string) : exn :=
  Exn "AttributeError"
      ("'" +:+ type_name v +:+ "' object has no attribute '" +:+ attr +:+ "'").

Definition TypeError (msg : string) : exn := Exn "TypeError" msg.

(** [str] of an integer raises a ValueError when the integer has more
    digits than [sys.get_int_max_str_digits()], 4300 unless the limit was
    changed, which this program does not do.  An integer has more than
    4300 digits when its absolute value reaches 10 to the power 4300; that
    bound is kept in evaluated form, so that a comparison with it does not
    compute the power again. *)
Definition int_max_str_digits : Z := 4300.

Definition digits_bound : Z := Eval vm_compute in (10 ^ int_max_str_digits)%Z.

Definition oversized (z : Z) : bool := (digits_bound <=? Z.abs z)%Z.

Arguments oversized : simpl never.

Definition digits_error : exn :=
  Exn "ValueError"
      "Exceeds the limit (4300 digits) for integer string conversion; use sys.set_int_max_str_digits() to increase the limit".

(** The text of a rendering that succeeded. *)
Definition text_of (r : fallible string) : string :=
  match r with
  | Ok s => s
  | Raise _ => ""
  end.

(** [bool(v)], the test of an [if]. *)
Definition truthy (v : pyval) : bool :=
  match v with
  | PNone => false
  | PBool b => b
  | PInt z => negb (z =? 0)%Z
  | PStr s => negb (String.eqb s "")
  | PList l => match l with [] => false | _ => true end
  | PDict d => match map_to_list d with [] => false | _ => true end
  end.

(** [v.get(key, dflt)]: only a dict has the method; a key bound to [None]
    is present, so the default is not used for it. *)
Definition py_get (v : pyval) (key : string) (dflt : pyval) : fallible pyval :=
  match v with
  | PDict d => Ok (default dflt (d !! key))
  | _ => Raise (AttributeError v "get")
  end.

(** [len(v)]. *)
Definition py_len (v : pyval) : fallible nat :=
  match v with
  | PStr s => Ok (String.length s)
  | PList l => Ok (length l)
  | PDict d => Ok (size d)
  | _ => Raise (TypeError ("object of type '" +:+ type_name v +:+ "' has no len()"))
  end.

Fixpoint chars (s : string) : list pyval :=
  match s with
  | EmptyString => []
  | String c rest => PStr (String c "") :: chars rest
  end.

(** The elements [for x in v] visits: the characters of a string, the
    items of a list, the keys of a dict. *)
Definition py_iter (v : pyval) : fallible (list pyval) :=
  match v with
  | PStr s => Ok (chars s)
  | PList l => Ok l
  | PDict d => Ok (PStr <$> (map_to_list d).*1)
  | _ => Raise (TypeError ("'" +:+ type_name v +:+ "' object is not iterable"))
  end.

(** [v[:n]]: strings and lists are sliced; a dict takes the slice for a
    key and refuses it (with [TypeError] up to Python 3.11, the class taken
    here, and with [KeyError] from 3.12 on). *)
Definition py_slice_to (n : nat) (v : pyval) : fallible pyval :=
  match v with
  | PStr s => Ok (PStr (str_take n s))
  | PList l => Ok (PList (take n l))
  | PDict _ => Raise (TypeError "unhashable type: 'slice'")
  | _ => Raise (TypeError ("'" +:+ type_name v +:+ "' object is not subscriptable"))
  end.

(** ** The data of the program *)

(** [SearchInputSchema(search_query=..., days_ago=..., max_results=...)]. *)
Record SearchInputSchema := {
  search_query : string;
  days_ago : Z;
  max_results : Z
}.

(** The four agents [NewsletterAgents.__init__] creates. *)
Inductive Role := Researcher | InsightsExpert | Writer | Editor.

(** One entry of a history: [{"role": ..., "content": ...}]. *)
Record ConversationTurn := { role : string; content : string }.

(** What an agent's [run] returns: an object of unknown class.  The model
    keeps its attributes and the text [str] gives for it.  An attribute
    may hold any value, [None] included. *)
Record response := { attrs : gmap string pyval; as_str : string }.

Definition hasattr (o : response) (name : string) : bool :=
  bool_decide (is_Some (attrs o !! name)).

Definition getattr (o : response) (name : string) : pyval :=
  default PNone (attrs o !! name).

(** What the program asks of its surroundings, in the order it asks. *)
Inductive component :=
| SearchTool (api_key : option string)
| Agent (r : Role).

Inductive event :=
| EConstruct (c : component)
| ESearch (search_input : SearchInputSchema)
| EAgentRun (r : Role) (chat_message : string) (history : list ConversationTurn)
| EInput (prompt : string).

(** A computation ends with a value, with an exception, or in [sys.exit]. *)
Inductive outcome (A : Type) :=
| Ret (a : A)
| Raised (e : exn)
| Exited (code : Z).
Arguments Ret {A} a.
Arguments Raised {A} e.
Arguments Exited {A} code.

(** The surroundings of the program: a world state of any type, the
    search tool's [run], an agent's [run], the constructors of the tool
    and of the agents, and what Python's [repr] gives for a list or a
    dict: a text, or the exception of an item that cannot be rendered. *)
Class Surroundings (W : Type) := {
  tool_run : SearchInputSchema → W → W * fallible pyval;
  agent_run : Role → string → list ConversationTurn → W → W * fallible response;
  construct : component → W → W * fallible unit;
  container_repr : pyval → fallible string
}.

Section Program.

Context {W : Type} {surroundings : Surroundings W}.

(** [str(v)], which is what an f-string field [{v}] and [print(v)]
    render. *)
Definition py_str (v : pyval) : fallible string :=
  match v with
  | PNone => Ok "None"
  | PBool true => Ok "True"
  | PBool false => Ok "False"
  | PInt z => if oversized z then Raise digits_error else Ok (str_Z z)
  | PStr s => Ok s
  | PList _ | PDict _ => container_repr v
  end.

(** ** The digest (lines 226 to 245 of [run_pipeline]) *)

(** The body of the loop over the results, lines 230 to 235 and again
    lines 240 to 245: the summary so far goes in, the extended summary
    comes out. *)
Definition render_result (i : nat) (result : pyval) (search_summary : string)
  : fallible string :=
  let search_summary := search_summary +:+ ("[Result " +:+ str_nat (i + 1) +:+ "]" +:+ nl) in
  title ← py_get result "title" PNone;
  title ← py_str title;
  let search_summary := search_summary +:+ ("Title: " +:+ title +:+ nl) in
  url ← py_get result "url" PNone;
  url ← py_str url;
  let search_summary := search_summary +:+ ("URL: " +:+ url +:+ nl) in
  published_date ← py_get result "published_date" PNone;
  published_date ← py_str published_date;
  let search_summary := search_summary +:+ ("Published: " +:+ published_date +:+ nl) in
  content_preview ← py_get result "content_preview" PNone;
  if truthy content_preview then
    preview ← py_slice_to 300 content_preview;
    preview ← py_str preview;
    Ok (search_summary +:+ ("Preview: " +:+ preview +:+ "..." +:+ nl +:+ nl))
  else Ok search_summary.

(** [for i, result in enumerate(results)]. *)
Fixpoint render_loop (i : nat) (results : list pyval) (search_summary : string)
  : fallible string :=
  match results with
  | [] => Ok search_summary
  | result :: rest =>
      search_summary ← render_result i result search_summary;
      render_loop (S i) rest search_summary
  end.

(** One [if ..._search_results.get("success"):] block.  The two blocks of
    the source differ in one character: the secondary one opens its first
    line with a newline, here [lead].  The fields of the first f-string
    are evaluated and rendered from left to right: the query before the
    length of the results. *)
Definition render_section (lead : string) (search_results : pyval)
    (search_summary : string) : fallible string :=
  success ← py_get search_results "success" PNone;
  if truthy success then
    query ← py_get search_results "search_query" PNone;
    query ← py_str query;
    results ← py_get search_results "results" (PList []);
    n ← py_len results;
    let search_summary :=
      search_summary +:+ (lead +:+ "Search for '" +:+ query +:+ "' found "
                          +:+ str_nat n +:+ " results:" +:+ nl +:+ nl) in
    results ← py_get search_results "results" (PList []);
    items ← py_iter results;
    render_loop 0 items search_summary
  else Ok search_summary.

Definition digest_header : string := "SEARCH RESULTS:" +:+ nl +:+ nl.

Definition build_search_summary (primary_search_results secondary_search_results : pyval)
  : fallible string :=
  let search_summary := digest_header in
  search_summary ← render_section "" primary_search_results search_summary;
  render_section nl secondary_search_results search_summary.

(** ** The prompts *)

(** Lines 250 to 256. *)
Definition research_message (user_input search_summary : string) : string :=
  "Research task: Analyze these search results about " +:+ user_input +:+ "." +:+ nl +:+ nl
  +:+ search_summary +:+ nl +:+ nl
  +:+ "Organize these findings into clear research with reliable sources. "
  +:+ "Include the significance of each development and its broader industry impact. "
  +:+ "If you need more specific information, use the search_and_contents tool with a specific query.".

(** Lines 290 to 295, given the text [{research_content}] renders to;
    [search_summary[:1000]] is the slice of the whole summary. *)
Definition insights_message (user_input research_text search_summary : string) : string :=
  "Add insights to the following research about " +:+ user_input +:+ "." +:+ nl +:+ nl
  +:+ "Research to analyze:" +:+ nl +:+ research_text +:+ nl +:+ nl
  +:+ "Also consider these additional search results:" +:+ nl
  +:+ str_take 1000 search_summary +:+ "..." +:+ nl +:+ nl
  +:+ "If you need any specific information, use the search_and_contents tool with a specific query.".

(** Line 324, given the text [{insights_content}] renders to. *)
Definition writing_message (user_input insights_text : string) : string :=
  "Transform these insights about " +:+ user_input
  +:+ " into engaging newsletter content:" +:+ nl +:+ nl +:+ insights_text.

(** Lines 347 to 350, given the text [{newsletter_draft}] renders to. *)
Definition editing_message (user_input draft_text : string) : string :=
  "Proofread and refine this newsletter draft about " +:+ user_input +:+ ". "
  +:+ "Ensure all sources are properly cited and the content is engaging and informative:"
  +:+ nl +:+ nl +:+ draft_text.

Definition user_turn (text : string) : ConversationTurn :=
  {| role := "user"; content := text |}.

(** ** Reading an agent's answer *)

(** The chain of [hasattr] tests, written out after each of the four
    stages (lines 269-278, 305-312, 334-341, 360-367). *)
Definition extract_content (agent_result : response) : pyval :=
  if hasattr agent_result "response_message" then getattr agent_result "response_message"
  else if hasattr agent_result "content" then getattr agent_result "content"
  else if hasattr agent_result "response_content" then getattr agent_result "response_content"
  else PStr (as_str agent_result).

(** Lines 283-284 and 317-318 narrate [len(result.tool_calls)] when the
    attribute is there and truthy. *)
Definition count_tool_calls (agent_result : response) : fallible unit :=
  if hasattr agent_result "tool_calls" && truthy (getattr agent_result "tool_calls") then
    _ ← py_len (getattr agent_result "tool_calls"); Ok ()
  else Ok ().

(** ** Effects *)

Record state := {
  world : W;
  log : list event;     (* the requests made so far, oldest first *)
  stdin : list string   (* the lines the user has still to type *)
}.

Definition M (A : Type) : Type := state → outcome A * state.

Definition M_ret {A} (a : A) : M A := fun st => (Ret a, st).

Definition M_bind {A B} (f : A → M B) (c : M A) : M B := fun st =>
  match c st with
  | (Ret a, st') => f a st'
  | (Raised e, st') => (Raised e, st')
  | (Exited n, st') => (Exited n, st')
  end.

#[global] Instance M_mret : MRet M := @M_ret.
#[global] Instance M_mbind : MBind M := @M_bind.

Definition lift {A} (r : fallible A) : M A := fun st =>
  match r with
  | Ok a => (Ret a, st)
  | Raise e => (Raised e, st)
  end.

Definition record (e : event) (w : W) (st : state) : state :=
  {| world := w; log := log st ++ [e]; stdin := stdin st |}.

(** A request to the surroundings: noted in the log, answered by the world. *)
Definition request {A} (e : event) (call : W → W * fallible A) : M A := fun st =>
  let '(w, r) := call (world st) in lift r (record e w st).

(** [try: body / except Exception as e: handler(e)]; [sys.exit] passes. *)
Definition try_except {A} (body : M A) (handler : exn → M A) : M A := fun st =>
  match body st with
  | (Raised e, st') => handler e st'
  | other => other
  end.

Definition sys_exit {A} (code : Z) : M A := fun st => (Exited code, st).

(** [input(prompt)]: the next line of standard input, [EOFError] at its end. *)
Definition input (prompt : string) : M string := fun st =>
  let st' := {| world := world st; log := log st ++ [EInput prompt]; stdin := tail (stdin st) |} in
  match stdin st with
  | line :: _ => (Ret line, st')
  | [] => (Raised (Exn "EOFError" "EOF when reading a line"), st')
  end.

(** ** [NewsletterAgents.manual_search] *)

Definition failure_dict (error_message : pyval) : pyval :=
  PDict (<["success" := PBool false]> (<["error_message" := error_message]> ∅)).

Definition manual_search (query : string) (days_ago : Z) : M pyval :=
  let search_input :=
    {| search_query := query; days_ago := days_ago; max_results := 5 |} in
  try_except
    (results ← request (ESearch search_input) (tool_run search_input);
     success ← lift (py_get results "success" PNone);
     if truthy success then
       (* line 198 narrates the number of results found *)
       total_results_found ← lift (py_get results "total_results_found" (PInt 0));
       _ ← lift (py_str total_results_found);
       mret results
     else
       (* line 201 narrates the error message, line 202 hands it back *)
       error_message ← lift (py_get results "error_message" (PStr "Unknown error"));
       _ ← lift (py_str error_message);
       error_message ← lift (py_get results "error_message" (PStr "Unknown error"));
       mret (failure_dict error_message))
    (fun e => mret (failure_dict (PStr (exn_msg e)))).

(** ** [NewsletterAgents.run_pipeline] *)

Definition run_agent (r : Role) (chat_message : string)
    (history : list ConversationTurn) : M response :=
  request (EAgentRun r chat_message history) (agent_run r chat_message history).

Definition pipeline_result (research insights draft final : pyval) : gmap string pyval :=
  <["research" := research]> (<["insights" := insights]>
    (<["draft" := draft]> (<["final" := final]> ∅))).

(** The four stages, from line 247 on, given the two search results.  The
    text of a stage is rendered when the f-string of the next prompt is
    evaluated, after the count of tool calls has been narrated. *)
Definition run_stages (user_input : string)
    (primary_search_results secondary_search_results : pyval)
  : M (gmap string pyval) :=
  search_summary ← lift (build_search_summary primary_search_results secondary_search_results);
  let research_history := [user_turn (research_message user_input search_summary)] in
  research_result ← run_agent Researcher "" research_history;
  let research_content := extract_content research_result in
  _ ← lift (count_tool_calls research_result);
  research_text ← lift (py_str research_content);
  let insights_history :=
    [user_turn (insights_message user_input research_text search_summary)] in
  insights_result ← run_agent InsightsExpert "" insights_history;
  let insights_content := extract_content insights_result in
  _ ← lift (count_tool_calls insights_result);
  insights_text ← lift (py_str insights_content);
  let writing_history := [user_turn (writing_message user_input insights_text)] in
  writing_result ← run_agent Writer "" writing_history;
  let newsletter_draft := extract_content writing_result in
  draft_text ← lift (py_str newsletter_draft);
  let editing_history := [user_turn (editing_message user_input draft_text)] in
  editing_result ← run_agent Editor "" editing_history;
  let final_newsletter := extract_content editing_result in
  mret (pipeline_result research_content insights_content newsletter_draft final_newsletter).

Definition run_pipeline (user_input : string) : M (gmap string pyval) :=
  primary_search_results ←
    manual_search ("latest developments in " +:+ user_input) 30;
  secondary_search_results ←
    manual_search ("impact of " +:+ user_input) 60;
  run_stages user_input primary_search_results secondary_search_results.

(** ** Start-up *)

(** [os.getenv(name)] and the test [not value] on what it gives. *)
Definition getenv (environ : gmap string string) (name : string) : option string :=
  environ !! name.

Definition is_set (value : option string) : bool :=
  match value with
  | Some s => negb (String.eqb s "")
  | None => false
  end.

(** [NewsletterAgents.__init__]: the search tool, then the four agents. *)
Definition NewsletterAgents_init (environ : gmap string string)
    (exa_api_key : option string) : M unit :=
  let exa_api_key :=
    if is_set exa_api_key then exa_api_key else getenv environ "EXA_API_KEY" in
  _ ← request (EConstruct (SearchTool exa_api_key)) (construct (SearchTool exa_api_key));
  _ ← request (EConstruct (Agent Researcher)) (construct (Agent Researcher));
  _ ← request (EConstruct (Agent InsightsExpert)) (construct (Agent InsightsExpert));
  _ ← request (EConstruct (Agent Writer)) (construct (Agent Writer));
  request (EConstruct (Agent Editor)) (construct (Agent Editor)).

(** The [__main__] block, lines 384 to 437. *)
Definition main (environ : gmap string string) (argv : list string) : M unit :=
  let exa_api_key := getenv environ "EXA_API_KEY" in
  _ ← (if negb (is_set exa_api_key) then
         proceed ← input "Do you want to proceed without web search? (y/n): ";
         if negb (String.eqb (lower proceed) "y") then sys_exit 1 else mret ()
       else mret ());
  _ ← NewsletterAgents_init environ exa_api_key;
  user_query ← (if (1 <? length argv)%nat then mret (join " " (tail argv))
                else input "Enter a topic for your AI newsletter: ");
  try_except
    (result ← run_pipeline user_query;
     (* print(result["final"]) *)
     _ ← lift (py_str (default PNone (result !! "final")));
     show_details ← input (nl +:+ "Would you like to see the intermediate steps? (y/n): ");
     if String.eqb (lower show_details) "y" then
       _ ← lift (py_str (default PNone (result !! "research")));
       _ ← lift (py_str (default PNone (result !! "insights")));
       _ ← lift (py_str (default PNone (result !! "draft")));
       mret ()
     else mret ())
    (fun e => mret ()).

(** The status the process ends with: [sys.exit(n)] gives [n], an
    exception nobody caught gives 1, the end of the script gives 0. *)
Definition exit_status {A} (o : outcome A) : Z :=
  match o with
  | Ret _ => 0
  | Raised _ => 1
  | Exited code => code
  end.

Definition initial (w : W) (typed : list string) : state :=
  {| world := w; log := []; stdin := typed |}.

End Program.

(** ** Vocabulary of the statements *)

(** The searches, the agent calls and the constructions a log holds. *)
Definition searches (l : list event) : list SearchInputSchema :=
  omap (fun e => match e with ESearch i => Some i | _ => None end) l.

Definition agent_calls (l : list event) : list Role :=
  omap (fun e => match e with EAgentRun r _ _ => Some r | _ => None end) l.

Definition constructions (l : list event) : list component :=
  omap (fun e => match e with EConstruct c => Some c | _ => None end) l.

(** The history an agent was run with, when the log holds a run of it. *)
Definition histories_of (r : Role) (l : list event) : list (list ConversationTurn) :=
  omap (fun e => match e with
                 | EAgentRun r' _ h =>
                     match r, r' with
                     | Researcher, Researcher | InsightsExpert, InsightsExpert
                     | Writer, Writer | Editor, Editor => Some h
                     | _, _ => None
                     end
                 | _ => None
                 end) l.

(** A search result counts as successful when it is a dict whose
    [success] entry is truthy. *)
Definition flagged (v : pyval) : bool :=
  match py_get v "success" PNone with
  | Ok flag => truthy flag
  | Raise _ => false
  end.

(** A value renders when [str] gives a text for it. *)
Definition renders {W : Type} {surroundings : Surroundings W} (v : pyval) : bool :=
  is_ok (py_str v).

(** The values whose rendering asks nothing of the surroundings: [None],
    a boolean, a text, and an integer within the limit of 4300 digits. *)
Definition plain (v : pyval) : bool :=
  match v with
  | PNone | PBool _ | PStr _ => true
  | PInt z => negb (oversized z)
  | PList _ | PDict _ => false
  end.

(** What [manual_search] hands back once it has narrated [v]: [answer],
    or the failure that the rendering of [v] raised. *)
Definition narrated {W : Type} {surroundings : Surroundings W} (v answer : pyval) : pyval :=
  match py_str v with
  | Ok _ => answer
  | Raise e => failure_dict (PStr (exn_msg e))
  end.

(** What [manual_search] hands back for each answer of the tool. *)
Definition search_answer {W : Type} {surroundings : Surroundings W}
    (r : fallible pyval) : pyval :=
  match r with
  | Raise e => failure_dict (PStr (exn_msg e))
  | Ok (PDict d) =>
      if flagged (PDict d) then
        narrated (default (PInt 0) (d !! "total_results_found")) (PDict d)
      else
        let error_message := default (PStr "Unknown error") (d !! "error_message") in
        narrated error_message (failure_dict error_message)
  | Ok v => failure_dict (PStr (exn_msg (AttributeError v "get")))
  end.

Definition is_text (v : pyval) : bool :=
  match v with PStr _ => true | _ => false end.


(** A result record as the search interface describes it: a dict whose
    preview, when it has one, is a text or [None].  Title, url and date
    may hold anything or be absent. *)
Definition is_record (v : pyval) : bool :=
  match v with
  | PDict d =>
      match d !! "content_preview" with
      | None | Some PNone | Some (PStr _) => true
      | Some _ => false
      end
  | _ => false
  end.

(** A successful search response carrying a list of such records. *)
Definition search_response (query : pyval) (records : list pyval) : pyval :=
  PDict (<["success" := PBool true]> (<["search_query" := query]>
          (<["results" := PList records]> ∅))).

(** The order in which the fields of an answer are tried, and the probe
    as section 7 of the specification words it: the first field present
    wins, the string conversion of the object is the fallback. *)
Definition field_precedence : list string :=
  ["response_message"; "content"; "response_content"].

Fixpoint probe_fields (names : list string) (o : response) : pyval :=
  match names with
  | [] => PStr (as_str o)
  | name :: rest =>
      match attrs o !! name with
      | Some v => v
      | None => probe_fields rest o
      end
  end.

(** Step 2 of section 4.1 as worded: both sections in the digest, the
    secondary one cut to 1000 characters, the primary one in full. *)
Definition stage2_digest_as_worded (primary_section secondary_section : string) : string :=
  digest_header +:+ primary_section +:+ str_take 1000 secondary_section.

(** Section 4.2 as worded: a field that is absent renders as nothing. *)
Definition field_as_worded {W : Type} {surroundings : Surroundings W} (field : option pyval) : string :=
  match field with
  | Some v => text_of (py_str v)
  | None => ""
  end.

(** The fixed text around a preview: the label and the closing dots with
    the two newlines. *)
Definition preview_label : string := "Preview: ".
Definition preview_tail : string := "..." +:+ nl +:+ nl.

(** The two search inputs of a run, and the four agent runs in the order
    of the stages, given the digest and the three texts passed on. *)
Definition primary_search_input (user_input : string) : SearchInputSchema :=
  {| search_query := "latest developments in " +:+ user_input;
     days_ago := 30; max_results := 5 |}.

Definition secondary_search_input (user_input : string) : SearchInputSchema :=
  {| search_query := "impact of " +:+ user_input;
     days_ago := 60; max_results := 5 |}.

Definition stage_events {W : Type} {surroundings : Surroundings W}
    (user_input search_summary research_text insights_text draft_text : string) : list event :=
  [ EAgentRun Researcher ""
      [user_turn (research_message user_input search_summary)];
    EAgentRun InsightsExpert ""
      [user_turn (insights_message user_input research_text search_summary)];
    EAgentRun Writer "" [user_turn (writing_message user_input insights_text)];
    EAgentRun Editor "" [user_turn (editing_message user_input draft_text)] ].

(** A search counts as failed when the tool raises or answers something
    that is not flagged as a success. *)
Definition search_failed (r : fallible pyval) : bool :=
  match r with
  | Raise _ => true
  | Ok v => negb (flagged v)
  end.

(** How the code renders a field of a record, present or not, and the
    preview of a record whose preview is a text. *)
Definition field_as_rendered {W : Type} {surroundings : Surroundings W}
    (field : option pyval) : string :=
  match field with
  | Some v => text_of (py_str v)
  | None => "None"
  end.

(** A field renders when it is absent or holds a value that renders; the
    title, the url and the date of a record are rendered in that order. *)
Definition field_renders {W : Type} {surroundings : Surroundings W}
    (field : option pyval) : bool :=
  match field with
  | Some v => renders v
  | None => true
  end.

Definition fields_render {W : Type} {surroundings : Surroundings W}
    (d : gmap string pyval) : bool :=
  field_renders (d !! "title") && field_renders (d !! "url")
  && field_renders (d !! "published_date").

(** A result record that the formatting renders: a record as above whose
    title, url and date render. *)
Definition record_renders {W : Type} {surroundings : Surroundings W}
    (v : pyval) : bool :=
  is_record v && match v with PDict d => fields_render d | _ => false end.

(** The lines of a record before its preview. *)
Definition record_head {W : Type} {surroundings : Surroundings W}
    (i : nat) (d : gmap string pyval) : string :=
  "[Result " +:+ str_nat (i + 1) +:+ "]" +:+ nl
  +:+ "Title: " +:+ field_as_rendered (d !! "title") +:+ nl
  +:+ "URL: " +:+ field_as_rendered (d !! "url") +:+ nl
  +:+ "Published: " +:+ field_as_rendered (d !! "published_date") +:+ nl.

Definition preview_as_rendered (content_preview : string) : string :=
  if String.eqb content_preview "" then ""
  else preview_label +:+ str_take 300 content_preview +:+ preview_tail.

(** ** Sample surroundings for the examples *)

(** An answer object with one attribute, [response_message]. *)
Definition reply (text : pyval) : response :=
  {| attrs := {[ "response_message" := text ]}; as_str := "<agent output>" |}.

(** A world without state: the tool answers by [search], every agent by
    [answer].  The examples render no list and no dict, so the text chosen
    for those plays no part. *)
Definition scripted (search : SearchInputSchema → fallible pyval)
    (answer : Role → fallible response) : Surroundings unit :=
  {| tool_run := fun search_input w => (w, search search_input);
     agent_run := fun r _ _ w => (w, answer r);
     construct := fun _ w => (w, Ok ());
     container_repr := fun _ => Ok "" |}.

Definition hit_fields (title preview : string) : gmap string pyval :=
  <["title" := PStr title]> (<["url" := PStr "https://example.org/a"]>
    (<["published_date" := PStr "2025-01-01"]>
      (<["content_preview" := PStr preview]> ∅))).

Definition hit (title preview : string) : pyval := PDict (hit_fields title preview).

(** Four results with previews of 400 characters each. *)
Definition long_results : list pyval :=
  [ hit "A" (str_repeat "a" 400); hit "B" (str_repeat "b" 400);
    hit "C" (str_repeat "c" 400); hit "D" (str_repeat "d" 400) ].

Definition long_search (search_input : SearchInputSchema) : fallible pyval :=
  Ok (search_response (PStr (search_query search_input)) long_results).

Definition short_search (search_input : SearchInputSchema) : fallible pyval :=
  Ok (search_response (PStr (search_query search_input)) [hit "A" "alpha"]).

Definition broken_search (search_input : SearchInputSchema) : fallible pyval :=
  Raise (Exn "ConnectionError" "network unreachable").


Definition huge : Z := digits_bound.


Definition plain_answer (r : Role) : fallible response := Ok (reply (PStr "text")).

(** The worlds of the examples, and the runs on the topic AI in them. *)
Definition sample_world : Surroundings unit := scripted short_search plain_answer.
Definition long_world : Surroundings unit := scripted long_search plain_answer.
Definition offline_world : Surroundings unit := scripted broken_search plain_answer.

Definition sample_run := run_pipeline (surroundings := sample_world) "AI" (initial () []).
Definition long_run := run_pipeline (surroundings := long_world) "AI" (initial () []).
Definition offline_run := run_pipeline (surroundings := offline_world) "AI" (initial () []).

(** The digest of the sample run, and the prompts its first two agents
    were given. *)
Definition sample_digest : string :=
  match build_search_summary (surroundings := sample_world)
          (search_answer (surroundings := sample_world)
             (short_search (primary_search_input "AI")))
          (search_answer (surroundings := sample_world)
             (short_search (secondary_search_input "AI"))) with
  | Ok digest => digest
  | Raise _ => ""
  end.

Definition sample_research_history : list ConversationTurn :=
  hd [] (histories_of Researcher (log sample_run.2)).

Definition long_insights_history : list ConversationTurn :=
  hd [] (histories_of InsightsExpert (log long_run.2)).

(** ** Vocabulary of the further properties *)

(** The prompts of [input] a log holds. *)
Definition prompts (l : list event) : list string :=
  omap (fun e => match e with EInput p => Some p | _ => None end) l.

(** A computation is contained when it never ends the process, reads no
    line of standard input, and asks the surroundings for nothing but
    searches and agent runs. *)
Definition contained {W : Type} {A : Type} (c : M (W := W) A) : Prop :=
  ∀ st,
    (∀ code, (c st).1 ≠ Exited code) ∧
    stdin (c st).2 = stdin st ∧
    ∃ l, log (c st).2 = log st ++ l ∧ constructions l = [] ∧ prompts l = [].

(** The block a record contributes to a section, and the blocks of a list
    of records numbered from [i + 1]. *)
Definition record_block {W : Type} {surroundings : Surroundings W}
    (i : nat) (d : gmap string pyval) : string :=
  record_head i d
  +:+ match d !! "content_preview" with
      | Some (PStr s) => preview_as_rendered s
      | _ => ""
      end.

Fixpoint blocks {W : Type} {surroundings : Surroundings W}
    (i : nat) (records : list (gmap string pyval)) : string :=
  match records with
  | [] => ""
  | d :: rest => record_block i d +:+ blocks (S i) rest
  end.

(** The line that opens a section. *)
Definition section_title {W : Type} {surroundings : Surroundings W}
    (lead : string) (query : option pyval) (n : nat) : string :=
  lead +:+ "Search for '" +:+ field_as_rendered query +:+ "' found "
  +:+ str_nat n +:+ " results:" +:+ nl +:+ nl.

(** The constructions of [NewsletterAgents.__init__], in order. *)
Definition init_components (exa_api_key : option string) : list component :=
  [SearchTool exa_api_key; Agent Researcher; Agent InsightsExpert;
   Agent Writer; Agent Editor].

Definition stage_order : list Role := [Researcher; InsightsExpert; Writer; Editor].

(** The two prompts of [main]. *)
Definition gate_prompt : string := "Do you want to proceed without web search? (y/n): ".
Definition topic_prompt : string := "Enter a topic for your AI newsletter: ".

(** The parts of [main] after the gate, named for the statements: the
    guarded run of lines 415 to 437, and everything from the construction
    of the agents on. *)
Definition details_prompt : string :=
  nl +:+ "Would you like to see the intermediate steps? (y/n): ".

Definition guarded_run {W : Type} {surroundings : Surroundings W}
    (user_query : string) : M unit :=
  try_except
    (result ← run_pipeline user_query;
     _ ← lift (py_str (default PNone (result !! "final")));
     show_details ← input details_prompt;
     if String.eqb (lower show_details) "y" then
       _ ← lift (py_str (default PNone (result !! "research")));
       _ ← lift (py_str (default PNone (result !! "insights")));
       _ ← lift (py_str (default PNone (result !! "draft")));
       mret ()
     else mret ())
    (fun e => mret ()).

Definition after_gate {W : Type} {surroundings : Surroundings W}
    (environ : gmap string string) (argv : list string) : M unit :=
  _ ← NewsletterAgents_init environ (getenv environ "EXA_API_KEY");
  user_query ← (if (1 <? length argv)%nat then mret (join " " (tail argv))
                else input topic_prompt);
  guarded_run user_query.


Definition hollow_search (search_input : SearchInputSchema) : fallible pyval :=
  Ok (PDict (<["success" := PBool true]> (<["results" := PNone]> ∅))).

Definition writer_fails (r : Role) : fallible response :=
  match r with
  | Writer => Raise (Exn "RateLimitError" "quota exceeded")
  | _ => Ok (reply (PStr "text"))
  end.

Definition counting_researcher (r : Role) : fallible response :=
  match r with
  | Researcher =>
      Ok {| attrs := <["tool_calls" := PBool true]> {[ "response_message" := PStr "text" ]};
            as_str := "<agent output>" |}
  | _ => Ok (reply (PStr "text"))
  end.

Definition hollow_world : Surroundings unit := scripted hollow_search plain_answer.
Definition writer_down_world : Surroundings unit := scripted short_search writer_fails.
Definition counting_world : Surroundings unit := scripted short_search counting_researcher.

Definition no_writer_world : Surroundings unit :=
  {| tool_run := fun search_input w => (w, short_search search_input);
     agent_run := fun r _ _ w => (w, plain_answer r);
     construct := fun c w =>
       (w, match c with
           | Agent Writer => Raise (Exn "ValueError" "no API key")
           | _ => Ok ()
           end);
     container_repr := fun _ => Ok "" |}.

(** A researcher whose answer holds an integer of 4301 digits. *)
Definition numeric_researcher (r : Role) : fallible response :=
  match r with
  | Researcher => Ok (reply (PInt huge))
  | _ => Ok (reply (PStr "text"))
  end.

Definition numeric_world : Surroundings unit := scripted short_search numeric_researcher.

(** An environment holding the search credential. *)
Definition keyed_environ : gmap string string := {[ "EXA_API_KEY" := "k-123" ]}.

(** * Properties *)

(** ** Strings *)

Lemma app_cons (c : ascii) (s t : string) : String c s +:+ t = String c (s +:+ t).
Proof. reflexivity. Qed.

Lemma app_empty_l (s : string) : "" +:+ s = s.
Proof. reflexivity. Qed.

Lemma app_empty_r (s : string) : s +:+ "" = s.
Proof. induction s as [|c s IH]; [done | by rewrite app_cons, IH]. Qed.

Lemma app_assoc_str (a b c : string) : (a +:+ b) +:+ c = a +:+ (b +:+ c).
Proof. induction a as [|x a IH]; [done | by rewrite !app_cons, IH]. Qed.

Lemma length_app_str (a b : string) :
  String.length (a +:+ b) = String.length a + String.length b.
Proof. induction a as [|x a IH]; [done | rewrite app_cons; simpl; by rewrite IH]. Qed.

Lemma length_str_take (n : nat) (s : string) :
  String.length (str_take n s) = Nat.min n (String.length s).
Proof.
  unfold str_take. revert s.
  induction n as [|n IH]; intros [|c s]; simpl; try done.
  by rewrite IH.
Qed.

Lemma str_take_prefix (n : nat) (s : string) : startswith (str_take n s) s = true.
Proof.
  unfold startswith, str_take. revert s.
  induction n as [|n IH]; intros [|c s]; simpl; try done.
  destruct (ascii_dec c c); [apply IH | done].
Qed.

Lemma startswith_app (p s : string) : startswith p (p +:+ s) = true.
Proof.
  unfold startswith. induction p as [|c p IH].
  - by destruct s.
  - rewrite app_cons. simpl. destruct (ascii_dec c c); [apply IH | done].
Qed.

Lemma app_nonempty_l (a b : string) : a ≠ "" → a +:+ b ≠ "".
Proof. destruct a; [done | rewrite app_cons; discriminate]. Qed.

(** ** The limit on the digits of an integer *)

Lemma digits_bound_eq : digits_bound = (10 ^ 4300)%Z.
Proof. vm_compute. reflexivity. Qed.

Lemma oversized_iff (z : Z) : oversized z = true ↔ (10 ^ 4300 ≤ Z.abs z)%Z.
Proof. unfold oversized. rewrite digits_bound_eq. apply Z.leb_le. Qed.

(** ** The digest grows by appending *)

Section Properties.

Context {W : Type} {surroundings : Surroundings W}.
Implicit Types (st : @state W) (w : W).

Lemma bind_ok {A B} (f : A → fallible B) (a : A) : (Ok a ≫= f) = f a.
Proof. done. Qed.

Lemma bind_inv {A B} (f : A → fallible B) (r : fallible A) (b : B) :
  (r ≫= f) = Ok b → ∃ a, r = Ok a ∧ f a = Ok b.
Proof. destruct r as [a|e]; [by exists a | done]. Qed.

Lemma py_get_dict (d : gmap string pyval) key dflt :
  py_get (PDict d) key dflt = Ok (default dflt (d !! key)).
Proof. done. Qed.

Lemma render_result_appends i result summary out :
  render_result i result summary = Ok out →
  ∃ piece, out = summary +:+ piece ∧
    ∀ summary', render_result i result summary' = Ok (summary' +:+ piece).
Proof.
  unfold render_result. intros Hout.
  apply bind_inv in Hout as (title & Ht & Hout).
  apply bind_inv in Hout as (title' & Ht' & Hout).
  apply bind_inv in Hout as (url & Hu & Hout).
  apply bind_inv in Hout as (url' & Hu' & Hout).
  apply bind_inv in Hout as (date & Hd & Hout).
  apply bind_inv in Hout as (date' & Hd' & Hout).
  apply bind_inv in Hout as (preview & Hp & Hout).
  destruct (truthy preview) eqn:Htr.
  - apply bind_inv in Hout as (cut & Hcut & Hout).
    apply bind_inv in Hout as (cut' & Hcut' & Hout). injection Hout as <-.
    eexists. split.
    + rewrite !app_assoc_str. reflexivity.
    + intros summary'.
      rewrite Ht, bind_ok, Ht', bind_ok, Hu, bind_ok, Hu', bind_ok.
      rewrite Hd, bind_ok, Hd', bind_ok, Hp, bind_ok, Htr, Hcut, bind_ok, Hcut', bind_ok.
      by rewrite !app_assoc_str.
  - injection Hout as <-. eexists. split.
    + rewrite !app_assoc_str. reflexivity.
    + intros summary'.
      rewrite Ht, bind_ok, Ht', bind_ok, Hu, bind_ok, Hu', bind_ok.
      rewrite Hd, bind_ok, Hd', bind_ok, Hp, bind_ok, Htr.
      by rewrite !app_assoc_str.
Qed.

Lemma render_loop_appends results : ∀ i summary out,
  render_loop i results summary = Ok out →
  ∃ piece, out = summary +:+ piece ∧
    ∀ summary', render_loop i results summary' = Ok (summary' +:+ piece).
Proof.
  induction results as [|r rest IH]; intros i summary out Hout; simpl in Hout.
  - injection Hout as <-. exists "". split; [by rewrite app_empty_r |].
    intros summary'. simpl. by rewrite app_empty_r.
  - apply bind_inv in Hout as (mid & Hmid & Hout).
    apply render_result_appends in Hmid as (p1 & -> & Hp1).
    apply IH in Hout as (p2 & -> & Hp2).
    exists (p1 +:+ p2). split; [by rewrite app_assoc_str |].
    intros summary'. simpl. rewrite Hp1, bind_ok, Hp2. by rewrite app_assoc_str.
Qed.

Lemma render_section_appends lead search_results summary out :
  render_section lead search_results summary = Ok out →
  ∃ piece, out = summary +:+ piece ∧
    ∀ summary', render_section lead search_results summary' = Ok (summary' +:+ piece).
Proof.
  unfold render_section. intros Hout.
  apply bind_inv in Hout as (flag & Hflag & Hout).
  destruct (truthy flag) eqn:Ht.
  - apply bind_inv in Hout as (query & Hq & Hout).
    apply bind_inv in Hout as (query' & Hq' & Hout).
    apply bind_inv in Hout as (results & Hr & Hout).
    apply bind_inv in Hout as (n & Hn & Hout).
    apply bind_inv in Hout as (results' & Hr' & Hout).
    rewrite Hr in Hr'. injection Hr' as <-.
    apply bind_inv in Hout as (items & Hi & Hout).
    apply render_loop_appends in Hout as (p & -> & Hp).
    eexists. split; [rewrite app_assoc_str; reflexivity |].
    intros summary'.
    rewrite Hflag, bind_ok, Ht, Hq, bind_ok, Hq', bind_ok, Hr, bind_ok, Hn, !bind_ok.
    rewrite Hi, bind_ok, Hp.
    by rewrite app_assoc_str.
  - injection Hout as <-. exists "". split; [by rewrite app_empty_r |].
    intros summary'. by rewrite Hflag, bind_ok, Ht, app_empty_r.
Qed.

Lemma build_search_summary_header primary secondary digest :
  build_search_summary primary secondary = Ok digest →
  ∃ first second,
    render_section "" primary "" = Ok first ∧
    render_section nl secondary "" = Ok second ∧
    digest = digest_header +:+ first +:+ second.
Proof.
  unfold build_search_summary. intros Hd.
  apply bind_inv in Hd as (mid & Hmid & Hd).
  apply render_section_appends in Hmid as (p1 & -> & Hp1).
  apply render_section_appends in Hd as (p2 & -> & Hp2).
  exists p1, p2. rewrite Hp1, Hp2, !app_empty_l. by rewrite app_assoc_str.
Qed.

(** ** [manual_search] always answers *)

Lemma manual_search_spec query days st :
  let search_input := {| search_query := query; days_ago := days; max_results := 5 |} in
  manual_search query days st =
    (Ret (search_answer (tool_run search_input (world st)).2),
     record (ESearch search_input) (tool_run search_input (world st)).1 st).
Proof.
  intros search_input. unfold manual_search, try_except, request.
  unfold mbind, M_mbind, M_bind. fold search_input.
  destruct (tool_run search_input (world st)) as [w [v|e]]; simpl; [|done].
  destruct v as [| | | | |d]; simpl; try done.
  unfold flagged, narrated. rewrite py_get_dict.
  destruct (truthy (default PNone (d !! "success"))); cbn [lift].
  - by destruct (py_str (default (PInt 0) (d !! "total_results_found"))).
  - by destruct (py_str (default (PStr "Unknown error") (d !! "error_message"))).
Qed.

(** ** The stages, step by step *)

Lemma M_bind_eq {A B} (f : A → M B) (c : M A) st :
  (c ≫= f) st =
  match c st with
  | (Ret a, st') => f a st'
  | (Raised e, st') => (Raised e, st')
  | (Exited n, st') => (Exited n, st')
  end.
Proof. done. Qed.

Lemma run_agent_eq r msg history st :
  run_agent r msg history st =
  lift (agent_run r msg history (world st)).2
       (record (EAgentRun r msg history) (agent_run r msg history (world st)).1 st).
Proof. unfold run_agent, request. by destruct (agent_run r msg history (world st)). Qed.

Lemma world_record e w st : world (record e w st) = w.
Proof. done. Qed.

Lemma log_record e w st : log (record e w st) = log st ++ [e].
Proof. done. Qed.

Ltac step_agent w r e Heq :=
  match goal with
  | |- context [(run_agent ?role ?m ?h ≫= ?f) ?st] =>
      rewrite (M_bind_eq f (run_agent role m h) st), (run_agent_eq role m h st);
      rewrite ?world_record;
      destruct (agent_run role m h _) as [w [r|e]] eqn:Heq; cbn [lift fst snd]
  end.

Ltac step_agent_with H :=
  match goal with
  | |- context [(run_agent ?role ?m ?h ≫= ?f) ?st] =>
      rewrite (M_bind_eq f (run_agent role m h) st), (run_agent_eq role m h st);
      rewrite ?world_record; rewrite H; cbn [lift fst snd]
  end.

Ltac step_count_with H :=
  match goal with
  | |- context [(lift (count_tool_calls ?r) ≫= ?f) ?st] =>
      rewrite (M_bind_eq f (lift (count_tool_calls r)) st), H; cbn [lift]
  end.

Ltac step_digest :=
  unfold run_stages;
  match goal with
  | |- context [(lift (build_search_summary ?p ?s) ≫= ?f) ?st] =>
      rewrite (M_bind_eq f (lift (build_search_summary p s)) st)
  end.

Ltac step_count Heq :=
  match goal with
  | |- context [(lift (count_tool_calls ?r) ≫= ?f) ?st] =>
      rewrite (M_bind_eq f (lift (count_tool_calls r)) st);
      destruct (count_tool_calls r) as [[]|?] eqn:Heq; cbn [lift]
  end.

Ltac step_render t e Heq :=
  match goal with
  | |- context [(lift (py_str ?v) ≫= ?f) ?st] =>
      rewrite (M_bind_eq f (lift (py_str v)) st);
      destruct (py_str v) as [t|e] eqn:Heq; cbn [lift]
  end.

Ltac step_render_with H :=
  match goal with
  | |- context [(lift (py_str ?v) ≫= ?f) ?st] =>
      rewrite (M_bind_eq f (lift (py_str v)) st), H; cbn [lift]
  end.

(** A run of the stages that returns went through the four agents, and
    rendered the texts of the first three. *)
Lemma run_stages_ret topic p s st res st' :
  run_stages topic p s st = (Ret res, st') →
  ∃ digest r1 r2 r3 r4 t1 t2 t3 w1 w2 w3 w4,
    build_search_summary p s = Ok digest ∧
    agent_run Researcher "" [user_turn (research_message topic digest)] (world st)
      = (w1, Ok r1) ∧
    py_str (extract_content r1) = Ok t1 ∧
    agent_run InsightsExpert "" [user_turn (insights_message topic t1 digest)] w1
      = (w2, Ok r2) ∧
    py_str (extract_content r2) = Ok t2 ∧
    agent_run Writer "" [user_turn (writing_message topic t2)] w2 = (w3, Ok r3) ∧
    py_str (extract_content r3) = Ok t3 ∧
    agent_run Editor "" [user_turn (editing_message topic t3)] w3 = (w4, Ok r4) ∧
    res = pipeline_result (extract_content r1) (extract_content r2)
                          (extract_content r3) (extract_content r4) ∧
    world st' = w4 ∧
    log st' = log st ++ stage_events topic digest t1 t2 t3.
Proof.
  step_digest.
  destruct (build_search_summary p s) as [digest|e] eqn:Hd; cbn [lift]; [|done].
  step_agent w1 r1 e1 H1; [|done].
  step_count Hc1; [|done].
  step_render t1 x1 Ht1; [|done].
  step_agent w2 r2 e2 H2; [|done].
  step_count Hc2; [|done].
  step_render t2 x2 Ht2; [|done].
  step_agent w3 r3 e3 H3; [|done].
  step_render t3 x3 Ht3; [|done].
  step_agent w4 r4 e4 H4; [|done].
  intros [= <- <-].
  exists digest, r1, r2, r3, r4, t1, t2, t3, w1, w2, w3, w4.
  repeat (split; [done|]).
  rewrite !log_record, <- !app_assoc. done.
Qed.

(** Conversely, agents that answer, with countable tool calls in the first
    two answers and texts that render in the first three, carry a run to
    its end. *)
Lemma run_stages_complete topic p s st digest r1 r2 r3 r4 t1 t2 t3 w1 w2 w3 w4 :
  build_search_summary p s = Ok digest →
  agent_run Researcher "" [user_turn (research_message topic digest)] (world st)
    = (w1, Ok r1) →
  count_tool_calls r1 = Ok () →
  py_str (extract_content r1) = Ok t1 →
  agent_run InsightsExpert "" [user_turn (insights_message topic t1 digest)] w1
    = (w2, Ok r2) →
  count_tool_calls r2 = Ok () →
  py_str (extract_content r2) = Ok t2 →
  agent_run Writer "" [user_turn (writing_message topic t2)] w2 = (w3, Ok r3) →
  py_str (extract_content r3) = Ok t3 →
  agent_run Editor "" [user_turn (editing_message topic t3)] w3 = (w4, Ok r4) →
  ∃ st', run_stages topic p s st =
           (Ret (pipeline_result (extract_content r1) (extract_content r2)
                                 (extract_content r3) (extract_content r4)), st') ∧
         log st' = log st ++ stage_events topic digest t1 t2 t3.
Proof.
  intros Hd H1 Hc1 Ht1 H2 Hc2 Ht2 H3 Ht3 H4. step_digest.
  rewrite Hd. cbn [lift].
  step_agent_with H1. step_count_with Hc1. step_render_with Ht1.
  step_agent_with H2. step_count_with Hc2. step_render_with Ht2.
  step_agent_with H3. step_render_with Ht3. step_agent_with H4.
  eexists. split; [reflexivity|].
  rewrite !log_record, <- !app_assoc. done.
Qed.

(** Whatever happens, the stages add to the log a prefix of the four agent
    runs, and none at all when the digest could not be built. *)
Lemma run_stages_log topic p s st out :
  run_stages topic p s st = out →
  ∃ l, log out.2 = log st ++ l ∧
    match build_search_summary p s with
    | Raise _ => l = []
    | Ok digest =>
        ∃ n t1 t2 t3, 1 ≤ n ∧ l = take n (stage_events topic digest t1 t2 t3)
    end.
Proof.
  step_digest.
  destruct (build_search_summary p s) as [digest|e] eqn:Hd; cbn [lift];
    [| intros <-; exists []; by rewrite app_nil_r].
  step_agent w1 r1 e1 H1;
    [| intros <-; eexists; split; [apply log_record|];
       exists 1, "", "", ""; split; [lia | done]].
  step_count Hc1;
    [| intros <-; eexists; split; [apply log_record|];
       exists 1, "", "", ""; split; [lia | done]].
  step_render t1 x1 Ht1;
    [| intros <-; eexists; split; [apply log_record|];
       exists 1, "", "", ""; split; [lia | done]].
  step_agent w2 r2 e2 H2;
    [| intros <-; eexists; split;
       [cbn [snd]; rewrite !log_record, <- !app_assoc; reflexivity|];
       exists 2, t1, "", ""; split; [lia | done]].
  step_count Hc2;
    [| intros <-; eexists; split;
       [cbn [snd]; rewrite !log_record, <- !app_assoc; reflexivity|];
       exists 2, t1, "", ""; split; [lia | done]].
  step_render t2 x2 Ht2;
    [| intros <-; eexists; split;
       [cbn [snd]; rewrite !log_record, <- !app_assoc; reflexivity|];
       exists 2, t1, "", ""; split; [lia | done]].
  step_agent w3 r3 e3 H3;
    [| intros <-; eexists; split;
       [cbn [snd]; rewrite !log_record, <- !app_assoc; reflexivity|];
       exists 3, t1, t2, ""; split; [lia | done]].
  step_render t3 x3 Ht3;
    [| intros <-; eexists; split;
       [cbn [snd]; rewrite !log_record, <- !app_assoc; reflexivity|];
       exists 3, t1, t2, ""; split; [lia | done]].
  step_agent w4 r4 e4 H4;
    (intros <-; eexists; split;
     [unfold mret, M_mret, M_ret; cbn [snd];
      rewrite !log_record, <- !app_assoc; reflexivity|];
     exists 4, t1, t2, t3; split; [lia | done]).
Qed.

(** The pipeline is the two searches followed by the stages. *)
Lemma run_pipeline_eq topic st :
  let first := tool_run (primary_search_input topic) (world st) in
  let second := tool_run (secondary_search_input topic) first.1 in
  run_pipeline topic st =
    run_stages topic (search_answer first.2) (search_answer second.2)
      (record (ESearch (secondary_search_input topic)) second.1
         (record (ESearch (primary_search_input topic)) first.1 st)).
Proof.
  intros first second. unfold run_pipeline.
  rewrite M_bind_eq, manual_search_spec, M_bind_eq, manual_search_spec.
  by rewrite world_record.
Qed.

(** ** What the stages leave in the log *)

Lemma searches_stage_events n topic digest c1 c2 c3 :
  searches (take n (stage_events topic digest c1 c2 c3)) = [].
Proof. by do 5 (destruct n as [|n]; [done|]). Qed.

Lemma researcher_stage_events n topic digest c1 c2 c3 :
  1 ≤ n →
  histories_of Researcher (take n (stage_events topic digest c1 c2 c3))
  = [[user_turn (research_message topic digest)]].
Proof. intros Hn. destruct n as [|n]; [lia|]. by do 4 (destruct n as [|n]; [done|]). Qed.

Lemma insights_stage_events n topic digest c1 c2 c3 h :
  h ∈ histories_of InsightsExpert (take n (stage_events topic digest c1 c2 c3)) →
  h = [user_turn (insights_message topic c1 digest)].
Proof.
  do 2 (destruct n as [|n]; [by intros ?%elem_of_nil|]).
  do 3 (destruct n as [|n]; [by intros ->%list_elem_of_singleton|]).
  by intros ->%list_elem_of_singleton.
Qed.

Lemma run_pipeline_log topic st :
  let first := tool_run (primary_search_input topic) (world st) in
  let second := tool_run (secondary_search_input topic) first.1 in
  ∃ l, log (run_pipeline topic st).2
       = log st ++ [ESearch (primary_search_input topic);
                    ESearch (secondary_search_input topic)] ++ l ∧
    match build_search_summary (search_answer first.2) (search_answer second.2) with
    | Raise _ => l = []
    | Ok digest =>
        ∃ n c1 c2 c3, 1 ≤ n ∧ l = take n (stage_events topic digest c1 c2 c3)
    end.
Proof.
  intros first second. rewrite run_pipeline_eq. fold first second.
  edestruct run_stages_log as (l & Hlog & Hl); [reflexivity|].
  exists l. split; [|exact Hl].
  rewrite Hlog, !log_record, <- !app_assoc. done.
Qed.

(** ** The claims *)

(** C7. For every topic the pipeline issues exactly two searches, whatever
    the tool and the agents do: first the query "latest developments in
    {topic}" over 30 days, then the query "impact of {topic}" over 60
    days, each with at most 5 results. *)
Theorem two_searches_per_run topic st :
  searches (log (run_pipeline topic st).2)
  = searches (log st)
    ++ [ {| search_query := "latest developments in " +:+ topic;
            days_ago := 30; max_results := 5 |};
         {| search_query := "impact of " +:+ topic;
            days_ago := 60; max_results := 5 |} ].
Proof.
  destruct (run_pipeline_log topic st) as (l & -> & Hl).
  unfold searches at 1. rewrite !omap_app. fold (searches (log st)) (searches l).
  f_equal.
  destruct (build_search_summary _ _).
  - destruct Hl as (n & c1 & c2 & c3 & _ & ->).
    by rewrite searches_stage_events.
  - by subst l.
Qed.

Lemma extract_content_probe o : extract_content o = probe_fields field_precedence o.
Proof.
  unfold extract_content, hasattr, getattr. simpl.
  destruct (attrs o !! "response_message") as [v|]; [by rewrite bool_decide_true|].
  rewrite bool_decide_false by (by intros [? ?]).
  destruct (attrs o !! "content") as [v|]; [by rewrite bool_decide_true|].
  rewrite bool_decide_false by (by intros [? ?]).
  destruct (attrs o !! "response_content") as [v|]; [by rewrite bool_decide_true|].
  by rewrite bool_decide_false by (by intros [? ?]).
Qed.

(** C3. The text of a stage is read from the answer by trying the fields
    response_message, content and response_content in this order; the
    string conversion of the object is used only when none of the three is
    present.  An answer with the single field content yields the value of
    that field.  In a run that returns, all four texts are read this way
    from the four answers of the agents. *)
Theorem extraction_follows_precedence :
  (∀ o, extract_content o = probe_fields field_precedence o) ∧
  (∀ o v, attrs o !! "response_message" = Some v → extract_content o = v) ∧
  (∀ o v, attrs o !! "response_message" = None →
          attrs o !! "content" = Some v → extract_content o = v) ∧
  (∀ o v, attrs o !! "response_message" = None → attrs o !! "content" = None →
          attrs o !! "response_content" = Some v → extract_content o = v) ∧
  (∀ o, attrs o !! "response_message" = None → attrs o !! "content" = None →
        attrs o !! "response_content" = None → extract_content o = PStr (as_str o)) ∧
  (∀ v text, extract_content {| attrs := {[ "content" := v ]}; as_str := text |} = v) ∧
  (∀ topic st res st',
     run_pipeline topic st = (Ret res, st') →
     ∃ r1 r2 r3 r4,
       res = pipeline_result (probe_fields field_precedence r1)
                             (probe_fields field_precedence r2)
                             (probe_fields field_precedence r3)
                             (probe_fields field_precedence r4)).
Proof.
  pose proof extract_content_probe as Hprobe.
  split; [exact Hprobe|].
  split; [|split; [|split; [|split; [|split]]]].
  - intros o v E1. rewrite Hprobe. simpl. by rewrite E1.
  - intros o v E1 E2. rewrite Hprobe. simpl. by rewrite E1, E2.
  - intros o v E1 E2 E3. rewrite Hprobe. simpl. by rewrite E1, E2, E3.
  - intros o E1 E2 E3. rewrite Hprobe. simpl. by rewrite E1, E2, E3.
  - intros v text. rewrite Hprobe. done.
  - intros topic st res st'. rewrite run_pipeline_eq. cbv zeta.
    intros (digest & r1 & r2 & r3 & r4 & _ & _ & _ & _ & _ & _ & _ & _ & _ & _ & _ & _
            & _ & _ & _ & Hres & _)%run_stages_ret.
    exists r1, r2, r3, r4. by rewrite <- !Hprobe.
Qed.

(** ** Failed searches *)

Lemma flagged_failure_dict m : flagged (failure_dict m) = false.
Proof. unfold flagged, failure_dict. by rewrite py_get_dict, lookup_insert_eq. Qed.

Lemma search_answer_failed r :
  search_failed r = true → ∃ m, search_answer r = failure_dict m.
Proof.
  destruct r as [v|e]; simpl; [|eauto].
  intros Hf%negb_true_iff. destruct v; eauto.
  rewrite Hf. unfold narrated.
  destruct (py_str _); eauto.
Qed.

Lemma render_section_unflagged lead v summary :
  (∃ d, v = PDict d) → flagged v = false → render_section lead v summary = Ok summary.
Proof.
  intros [d ->]. unfold flagged, render_section. rewrite py_get_dict, bind_ok.
  by intros ->.
Qed.

Lemma render_section_failure lead m summary :
  render_section lead (failure_dict m) summary = Ok summary.
Proof.
  apply render_section_unflagged; [by eexists | apply flagged_failure_dict].
Qed.

Lemma build_search_summary_both_failed m1 m2 :
  build_search_summary (failure_dict m1) (failure_dict m2) = Ok digest_header.
Proof.
  unfold build_search_summary.
  by rewrite render_section_failure, bind_ok, render_section_failure.
Qed.

(** C10. In every run the digest put into the research prompt begins with
    the header line and is therefore never empty; when both searches fail
    the research agent is still run, and the digest is then the header
    alone. *)
Theorem research_digest_has_header topic w typed :
  let out := run_pipeline topic (initial w typed) in
  let first := tool_run (primary_search_input topic) w in
  let second := tool_run (secondary_search_input topic) first.1 in
  (∀ h, h ∈ histories_of Researcher (log out.2) →
     ∃ digest, h = [user_turn (research_message topic digest)] ∧
               startswith ("SEARCH RESULTS:" +:+ nl +:+ nl) digest = true ∧
               digest ≠ "") ∧
  (search_failed first.2 = true → search_failed second.2 = true →
     histories_of Researcher (log out.2)
     = [[user_turn (research_message topic ("SEARCH RESULTS:" +:+ nl +:+ nl))]]).
Proof.
  intros out first second.
  destruct (run_pipeline_log topic (initial w typed)) as (l & Hlog & Hl).
  fold out in Hlog. cbn [world log initial app] in Hlog, Hl. fold first second in Hl.
  assert (Hh : histories_of Researcher (log out.2) = histories_of Researcher l)
    by (by rewrite Hlog).
  rewrite Hh. split.
  - intros h Hin.
    destruct (build_search_summary _ _) as [digest|e] eqn:Hd;
      [| subst l; by apply elem_of_nil in Hin].
    destruct Hl as (n & c1 & c2 & c3 & Hn & ->).
    rewrite researcher_stage_events in Hin by done.
    apply list_elem_of_singleton in Hin as ->.
    exists digest. split; [done|].
    apply build_search_summary_header in Hd as (p1 & p2 & _ & _ & ->).
    split; [apply startswith_app | by apply app_nonempty_l].
  - intros (m1 & Hm1)%search_answer_failed (m2 & Hm2)%search_answer_failed.
    rewrite Hm1, Hm2, build_search_summary_both_failed in Hl.
    destruct Hl as (n & c1 & c2 & c3 & Hn & ->).
    by rewrite researcher_stage_events.
Qed.

(** C8. When the search credential is absent from the environment and the
    user's answer at the gate is not the affirmative one (the letter y, in
    either case), the process exits with status 1 and nothing has been
    constructed: neither the search tool nor any agent. *)
Theorem gate_exits_before_construction environ argv w answer typed :
  getenv environ "EXA_API_KEY" = None →
  lower answer ≠ "y" →
  let out := main environ argv (initial w (answer :: typed)) in
  out.1 = Exited 1 ∧
  exit_status out.1 = 1%Z ∧
  constructions (log out.2) = [] ∧
  agent_calls (log out.2) = [] ∧
  world out.2 = w.
Proof.
  intros Henv Hanswer out. subst out. unfold main.
  rewrite Henv. cbn [is_set negb].
  rewrite !M_bind_eq. cbn [input initial stdin].
  apply String.eqb_neq in Hanswer. rewrite Hanswer. cbn [negb sys_exit].
  done.
Qed.


Lemma renders_text v : renders v = true → ∃ text, py_str v = Ok text.
Proof. unfold renders. destruct (py_str v) as [text|]; [by exists text | done]. Qed.

Lemma plain_renders v : plain v = true → renders v = true.
Proof.
  unfold renders. destruct v as [|[]|z| | |]; simpl; try done.
  by intros ->%negb_true_iff.
Qed.

(** C4. A search that failed, the primary or the secondary one, adds
    nothing to the digest and raises nothing: the digest is then what the
    other search alone gives, and the header alone when both failed.  When
    the digest is built and the agents answer, with texts that render, the
    run goes through the four agents in order and returns. *)
Theorem failed_search_is_omitted topic st :
  let first := tool_run (primary_search_input topic) (world st) in
  let second := tool_run (secondary_search_input topic) first.1 in
  let primary := search_answer first.2 in
  let secondary := search_answer second.2 in
  (∀ lead d summary,
     truthy (default PNone (d !! "success")) = false →
     render_section lead (PDict d) summary = Ok summary) ∧
  (search_failed first.2 = true →
     build_search_summary primary secondary
     = render_section nl secondary ("SEARCH RESULTS:" +:+ nl +:+ nl)) ∧
  (search_failed second.2 = true →
     build_search_summary primary secondary
     = render_section "" primary ("SEARCH RESULTS:" +:+ nl +:+ nl)) ∧
  (search_failed first.2 = true → search_failed second.2 = true →
     build_search_summary primary secondary = Ok ("SEARCH RESULTS:" +:+ nl +:+ nl)) ∧
  ((∀ r m h w, ∃ w' a, agent_run r m h w = (w', Ok a) ∧ count_tool_calls a = Ok ()
                       ∧ renders (extract_content a) = true) →
   is_ok (build_search_summary primary secondary) = true →
     ∃ res st',
       run_pipeline topic st = (Ret res, st') ∧
       agent_calls (log st')
       = agent_calls (log st) ++ [Researcher; InsightsExpert; Writer; Editor]).
Proof.
  intros first second primary secondary.
  split; [|split; [|split; [|split]]].
  - intros lead d summary Hf.
    apply render_section_unflagged; [by eexists|].
    unfold flagged. by rewrite py_get_dict.
  - intros (m & Hm)%search_answer_failed. unfold primary. rewrite Hm.
    unfold build_search_summary. fold digest_header.
    by rewrite render_section_failure, bind_ok.
  - intros (m & Hm)%search_answer_failed. unfold secondary. rewrite Hm.
    unfold build_search_summary. fold digest_header.
    destruct (render_section "" primary digest_header) as [mid|e]; [|done].
    by rewrite bind_ok, render_section_failure.
  - intros (m1 & Hm1)%search_answer_failed (m2 & Hm2)%search_answer_failed.
    unfold primary, secondary. rewrite Hm1, Hm2.
    apply build_search_summary_both_failed.
  - intros Hagents.
    destruct (build_search_summary primary secondary) as [digest|e] eqn:Hd; [|done].
    intros _. rewrite run_pipeline_eq. fold first second primary secondary.
    set (st0 := record _ _ (record _ _ st)).
    destruct (Hagents Researcher "" [user_turn (research_message topic digest)]
                (world st0)) as (w1 & r1 & H1 & Hc1 & (t1 & Ht1)%renders_text).
    destruct (Hagents InsightsExpert ""
                [user_turn (insights_message topic t1 digest)] w1)
      as (w2 & r2 & H2 & Hc2 & (t2 & Ht2)%renders_text).
    destruct (Hagents Writer "" [user_turn (writing_message topic t2)] w2)
      as (w3 & r3 & H3 & _ & (t3 & Ht3)%renders_text).
    destruct (Hagents Editor "" [user_turn (editing_message topic t3)] w3)
      as (w4 & r4 & H4 & _).
    destruct (run_stages_complete topic primary secondary st0 digest
                r1 r2 r3 r4 t1 t2 t3 w1 w2 w3 w4) as (st' & Hrun & Hlog); try done.
    do 2 eexists. split; [exact Hrun|].
    rewrite Hlog. unfold st0. rewrite !log_record.
    unfold agent_calls. rewrite !omap_app. simpl. by rewrite !app_nil_r.
Qed.

(** C5. When the digest is built, the four agent calls succeed and each
    answer exposes a text (in the first present field of response_message,
    content and response_content, or as its string conversion when it has
    none of them), the run returns a dict with exactly the four keys
    research, insights, draft and final, and the value under each key is a
    text: the one the answer of that stage exposes. *)
Theorem pipeline_result_shape topic st digest r1 r2 r3 r4 t1 t2 t3 t4 w1 w2 w3 w4 :
  let first := tool_run (primary_search_input topic) (world st) in
  let second := tool_run (secondary_search_input topic) first.1 in
  build_search_summary (search_answer first.2) (search_answer second.2) = Ok digest →
  agent_run Researcher "" [user_turn (research_message topic digest)] second.1
    = (w1, Ok r1) →
  count_tool_calls r1 = Ok () →
  probe_fields field_precedence r1 = PStr t1 →
  agent_run InsightsExpert "" [user_turn (insights_message topic t1 digest)] w1
    = (w2, Ok r2) →
  count_tool_calls r2 = Ok () →
  probe_fields field_precedence r2 = PStr t2 →
  agent_run Writer "" [user_turn (writing_message topic t2)] w2 = (w3, Ok r3) →
  probe_fields field_precedence r3 = PStr t3 →
  agent_run Editor "" [user_turn (editing_message topic t3)] w3 = (w4, Ok r4) →
  probe_fields field_precedence r4 = PStr t4 →
  ∃ res st',
    run_pipeline topic st = (Ret res, st') ∧
    dom res = {[ "research"; "insights"; "draft"; "final" ]} ∧
    res !! "research" = Some (PStr t1) ∧
    res !! "insights" = Some (PStr t2) ∧
    res !! "draft" = Some (PStr t3) ∧
    res !! "final" = Some (PStr t4) ∧
    (∀ key v, res !! key = Some v → is_text v = true ∧ v ≠ PNone).
Proof.
  intros first second Hd H1 Hc1 T1 H2 Hc2 T2 H3 T3 H4 T4.
  rewrite <- extract_content_probe in T1, T2, T3, T4.
  rewrite run_pipeline_eq. fold first second.
  destruct (run_stages_complete topic (search_answer first.2) (search_answer second.2)
              (record (ESearch (secondary_search_input topic)) second.1
                 (record (ESearch (primary_search_input topic)) first.1 st))
              digest r1 r2 r3 r4 t1 t2 t3 w1 w2 w3 w4) as (st' & Hrun & _);
    rewrite ?T1, ?T2, ?T3; try done.
  rewrite T1, T2, T3, T4 in Hrun.
  do 2 eexists. split; [exact Hrun|]. unfold pipeline_result.
  split; [rewrite !dom_insert_L, dom_empty_L; set_solver|].
  do 4 (split; [by simplify_map_eq|]).
  intros key v Hkey.
  destruct (decide (key = "research")) as [->|]; [by simplify_map_eq|].
  destruct (decide (key = "insights")) as [->|]; [by simplify_map_eq|].
  destruct (decide (key = "draft")) as [->|]; [by simplify_map_eq|].
  destruct (decide (key = "final")) as [->|]; by simplify_map_eq.
Qed.

(** ** The rendering of one record *)

Lemma field_as_rendered_get (d : gmap string pyval) key :
  field_renders (d !! key) = true →
  py_str (default PNone (d !! key)) = Ok (field_as_rendered (d !! key)).
Proof.
  unfold field_renders, field_as_rendered, renders.
  destruct (d !! key) as [v|]; [|done]. simpl. by destruct (py_str v).
Qed.

Lemma fields_render_inv d :
  fields_render d = true →
  field_renders (d !! "title") = true ∧ field_renders (d !! "url") = true
  ∧ field_renders (d !! "published_date") = true.
Proof. unfold fields_render. by intros [[? ?]%andb_true_iff ?]%andb_true_iff. Qed.

Lemma render_result_dict i d summary :
  fields_render d = true →
  render_result i (PDict d) summary =
  let content_preview := default PNone (d !! "content_preview") in
  if truthy content_preview then
    preview ← py_slice_to 300 content_preview;
    preview ← py_str preview;
    Ok (summary +:+ record_head i d
        +:+ (preview_label +:+ preview +:+ preview_tail))
  else Ok (summary +:+ record_head i d).
Proof.
  intros (Ht & Hu & Hp)%fields_render_inv.
  unfold render_result, record_head, preview_label, preview_tail.
  rewrite !py_get_dict, bind_ok; cbv beta.
  rewrite (field_as_rendered_get d "title" Ht), !bind_ok; cbv beta.
  rewrite (field_as_rendered_get d "url" Hu), !bind_ok; cbv beta.
  rewrite (field_as_rendered_get d "published_date" Hp), !bind_ok. cbv beta zeta.
  destruct (truthy _).
  - destruct (py_slice_to 300 _) as [cut|]; [|done]. rewrite !bind_ok.
    destruct (py_str cut); [|done]. rewrite !bind_ok.
    by rewrite !app_assoc_str.
  - by rewrite !app_assoc_str.
Qed.

Lemma record_head_delete_preview i d :
  record_head i (delete "content_preview" d) = record_head i d.
Proof. unfold record_head. by rewrite !lookup_delete_ne. Qed.

Lemma fields_render_delete_preview d :
  fields_render (delete "content_preview" d) = fields_render d.
Proof. unfold fields_render. by rewrite !lookup_delete_ne. Qed.

Lemma truthy_text s : truthy (PStr s) = negb (String.eqb s "").
Proof. done. Qed.

Lemma length_preview_as_rendered s :
  String.length (preview_as_rendered s) ≤ 300 + 9 + 5.
Proof.
  unfold preview_as_rendered. destruct (String.eqb s ""); [simpl; lia|].
  rewrite !length_app_str, length_str_take.
  change (String.length preview_label) with 9.
  change (String.length preview_tail) with 5. lia.
Qed.

(** The preview is rendered last: a record with a text as preview renders
    as the record without it, followed by the preview field. *)
Lemma render_result_preview_last i d s summary :
  d !! "content_preview" = Some (PStr s) →
  render_result i (PDict d) summary
  = (head ← render_result i (PDict (delete "content_preview" d)) summary;
     Ok (head +:+ preview_as_rendered s)).
Proof.
  intros Hs. unfold render_result.
  rewrite !py_get_dict, lookup_delete_eq, Hs.
  rewrite !lookup_delete_ne by done.
  rewrite !bind_ok; cbv beta.
  destruct (py_str (default PNone (d !! "title"))) as [title|]; [|done].
  rewrite !bind_ok; cbv beta.
  destruct (py_str (default PNone (d !! "url"))) as [url|]; [|done].
  rewrite !bind_ok; cbv beta.
  destruct (py_str (default PNone (d !! "published_date"))) as [date|]; [|done].
  rewrite !bind_ok; cbv beta.
  change (default PNone (Some (PStr s))) with (PStr s).
  change (default PNone None) with PNone. cbv zeta.
  rewrite truthy_text. unfold preview_as_rendered.
  destruct (String.eqb s ""); simpl; [by rewrite app_empty_r | done].
Qed.

(** C6. The preview of a result enters the digest cut to its first 300
    characters: a record whose preview is the text [s] renders as the same
    record without preview followed by one preview field, and that field
    is the label, at most 300 characters of [s] taken from its start, and
    the closing dots and newlines, so at most 300 characters plus the 14
    of the label and the closing.  The record without preview renders
    whenever its title, url and date do. *)
Theorem preview_capped_at_300 i d s summary :
  d !! "content_preview" = Some (PStr s) →
  render_result i (PDict d) summary
  = (head ← render_result i (PDict (delete "content_preview" d)) summary;
     Ok (head +:+ preview_as_rendered s)) ∧
  (fields_render d = true →
   ∃ head,
     render_result i (PDict (delete "content_preview" d)) summary = Ok head ∧
     render_result i (PDict d) summary = Ok (head +:+ preview_as_rendered s)) ∧
  (s ≠ "" → preview_as_rendered s
            = "Preview: " +:+ str_take 300 s +:+ ("..." +:+ nl +:+ nl)) ∧
  String.length (str_take 300 s) ≤ 300 ∧
  startswith (str_take 300 s) s = true ∧
  String.length (preview_as_rendered s)
  ≤ 300 + String.length "Preview: " + String.length ("..." +:+ nl +:+ nl).
Proof.
  intros Hs.
  split; [by apply render_result_preview_last|].
  split; [|split; [|split; [|split]]].
  - intros Hf. exists (summary +:+ record_head i d).
    rewrite (render_result_preview_last i d s) by done.
    rewrite render_result_dict by (by rewrite fields_render_delete_preview).
    by rewrite lookup_delete_eq, record_head_delete_preview.
  - intros Hne%String.eqb_neq. unfold preview_as_rendered. by rewrite Hne.
  - rewrite length_str_take. lia.
  - apply str_take_prefix.
  - apply length_preview_as_rendered.
Qed.

(** ** Records that render *)

Lemma render_result_record i d summary :
  is_record (PDict d) = true →
  fields_render d = true →
  render_result i (PDict d) summary
  = Ok (summary +:+ record_head i d
        +:+ match d !! "content_preview" with
            | Some (PStr s) => preview_as_rendered s
            | _ => ""
            end).
Proof.
  unfold is_record. intros Hr Hf. rewrite render_result_dict by done. cbv zeta.
  destruct (d !! "content_preview") as [[| | |s| |]|]; try done; simpl.
  - by rewrite app_empty_r.
  - unfold preview_as_rendered. destruct (String.eqb s ""); simpl; [|done].
    by rewrite app_empty_r.
  - by rewrite app_empty_r.
Qed.

Lemma render_loop_records records :
  Forall (fun r => record_renders r = true) records →
  ∀ i summary, is_ok (render_loop i records summary) = true.
Proof.
  induction 1 as [|r records Hr _ IH]; intros i summary; [done|].
  destruct r as [| | | | |d]; try done. simpl.
  apply andb_true_iff in Hr as [Hr Hf].
  rewrite render_result_record, bind_ok by done. apply IH.
Qed.

Lemma render_section_records query records lead summary :
  renders query = true →
  Forall (fun r => record_renders r = true) records →
  is_ok (render_section lead (search_response query records) summary) = true.
Proof.
  intros (text & Hq)%renders_text Hrecords. unfold render_section, search_response.
  rewrite !py_get_dict. simplify_map_eq. rewrite Hq, bind_ok.
  by apply render_loop_records.
Qed.

Lemma render_result_oversized i d z summary :
  d !! "title" = Some (PInt z) → oversized z = true →
  render_result i (PDict d) summary = Raise digits_error.
Proof.
  intros Ht Hz. unfold render_result.
  rewrite !py_get_dict, bind_ok, Ht. cbv beta. cbn [default id py_str]. by rewrite Hz.
Qed.

(** C2 (amended). On result records whose title, url and date render
    where they are present, and whose preview, when there is one, is a
    text or [None], the formatting has no failure: it returns a string for
    every sequence of them, with or without title, url and date.  A field
    that is absent renders as the text None, exactly as a field holding
    [None] does.  [None], a boolean, a text and an integer of at most 4300
    digits always render; a title holding a longer integer makes the
    formatting raise a ValueError. *)
Theorem formatting_total_on_records :
  (∀ i d summary,
     is_record (PDict d) = true →
     fields_render d = true →
     render_result i (PDict d) summary
     = Ok (summary +:+ record_head i d
           +:+ match d !! "content_preview" with
               | Some (PStr s) => preview_as_rendered s
               | _ => ""
               end)) ∧
  (∀ i d,
     d !! "title" = None → d !! "url" = None → d !! "published_date" = None →
     fields_render d = true ∧
     record_head i d
     = "[Result " +:+ str_nat (i + 1) +:+ "]" +:+ nl +:+ "Title: None" +:+ nl
       +:+ "URL: None" +:+ nl +:+ "Published: None" +:+ nl) ∧
  (∀ records,
     Forall (fun r => record_renders r = true) records →
     ∀ i summary, is_ok (render_loop i records summary) = true) ∧
  (∀ query1 records1 query2 records2,
     renders query1 = true → renders query2 = true →
     Forall (fun r => record_renders r = true) records1 →
     Forall (fun r => record_renders r = true) records2 →
     is_ok (build_search_summary (search_response query1 records1)
                                 (search_response query2 records2)) = true) ∧
  (∀ v, plain v = true → renders v = true) ∧
  (∀ i d z summary,
     d !! "title" = Some (PInt z) → oversized z = true →
     render_result i (PDict d) summary
     = Raise (Exn "ValueError" (exn_msg digits_error))).
Proof.
  split; [exact render_result_record|]. split; [|split; [|split; [|split]]].
  - intros i d E1 E2 E3. unfold fields_render, record_head. by rewrite E1, E2, E3.
  - exact render_loop_records.
  - intros query1 records1 query2 records2 Hq1 Hq2 H1 H2. unfold build_search_summary.
    pose proof (render_section_records query1 records1 "" digest_header Hq1 H1) as Hp.
    destruct (render_section "" _ digest_header) as [mid|]; [|done].
    rewrite bind_ok. by apply render_section_records.
  - exact plain_renders.
  - exact render_result_oversized.
Qed.

(** C1 (amended). In the prompt of the insights stage the digest of stage
    1 comes back cut as a whole: what is embedded is the first 1000
    characters of the full digest (the header, then the primary section,
    then the secondary section) followed by three dots.  The research
    prompt of the same run holds that digest in full. *)
Theorem stage2_digest_is_cut_whole topic w typed :
  let out := run_pipeline topic (initial w typed) in
  ∀ h, h ∈ histories_of InsightsExpert (log out.2) →
    ∃ digest first second research research_text,
      render_section "" (search_answer (tool_run (primary_search_input topic) w).2) ""
        = Ok first ∧
      render_section nl
        (search_answer (tool_run (secondary_search_input topic)
                          (tool_run (primary_search_input topic) w).1).2) ""
        = Ok second ∧
      digest = ("SEARCH RESULTS:" +:+ nl +:+ nl) +:+ first +:+ second ∧
      histories_of Researcher (log out.2)
        = [[user_turn (research_message topic digest)]] ∧
      py_str research = Ok research_text ∧
      h = [user_turn
             ("Add insights to the following research about " +:+ topic +:+ "."
              +:+ nl +:+ nl
              +:+ "Research to analyze:" +:+ nl +:+ research_text +:+ nl +:+ nl
              +:+ "Also consider these additional search results:" +:+ nl
              +:+ str_take 1000 digest +:+ "..." +:+ nl +:+ nl
              +:+ "If you need any specific information, use the search_and_contents tool with a specific query.")] ∧
      String.length (str_take 1000 digest) = Nat.min 1000 (String.length digest) ∧
      startswith (str_take 1000 digest) digest = true.
Proof.
  intros out h Hin.
  destruct (run_pipeline_log topic (initial w typed)) as (l & Hlog & Hl).
  fold out in Hlog. cbn [world log initial app] in Hlog, Hl.
  assert (Hi : histories_of InsightsExpert (log out.2) = histories_of InsightsExpert l)
    by (by rewrite Hlog).
  assert (Hr : histories_of Researcher (log out.2) = histories_of Researcher l)
    by (by rewrite Hlog).
  rewrite Hi in Hin. rewrite Hr.
  destruct (build_search_summary _ _) as [digest|e] eqn:Hd;
    [| subst l; by apply elem_of_nil in Hin].
  destruct Hl as (n & c1 & c2 & c3 & Hn & ->).
  apply insights_stage_events in Hin as ->.
  apply build_search_summary_header in Hd as (first & second & Hf & Hs & ->).
  exists (digest_header +:+ first +:+ second), first, second, (PStr c1), c1.
  split; [exact Hf|]. split; [exact Hs|]. split; [done|].
  split; [by apply researcher_stage_events|]. split; [done|]. split; [done|].
  split; [apply length_str_take | apply str_take_prefix].
Qed.

(** ** Further properties *)

(** *** What a run keeps away from *)

Lemma contained_ret {A} (a : A) : contained (W := W) (mret a).
Proof.
  intros st. split; [done|]. split; [done|]. exists []. by rewrite app_nil_r.
Qed.

Lemma contained_lift {A} (r : fallible A) : contained (W := W) (lift r).
Proof.
  intros st. destruct r; (split; [done|]; split; [done|]; exists []; by rewrite app_nil_r).
Qed.

Lemma contained_request {A} e (call : W → W * fallible A) :
  constructions [e] = [] → prompts [e] = [] → contained (request e call).
Proof.
  intros Hc Hp st. unfold request.
  destruct (call (world st)) as [w [a|err]]; simpl;
    (split; [done|]; split; [done|]; by exists [e]).
Qed.

Lemma contained_bind {A B} (c : M (W := W) A) (f : A → M (W := W) B) :
  contained c → (∀ a, contained (f a)) → contained (c ≫= f).
Proof.
  intros Hc Hf st. rewrite M_bind_eq.
  destruct (Hc st) as (Hexit & Hin & l & Hlog & Hcons & Hprompts).
  destruct (c st) as [[a|e|n] st1]; simpl in *.
  - destruct (Hf a st1) as (Hexit' & Hin' & l' & Hlog' & Hcons' & Hprompts').
    split; [done|]. split; [congruence|].
    exists (l ++ l'). rewrite Hlog', Hlog, <- app_assoc. split; [done|].
    unfold constructions, prompts in *. rewrite !omap_app.
    by rewrite Hcons, Hcons', Hprompts, Hprompts'.
  - split; [done|]. split; [done|]. by exists l.
  - by destruct (Hexit n).
Qed.

Lemma contained_try_except {A} (body : M (W := W) A) (handler : exn → M (W := W) A) :
  contained body → (∀ e, contained (handler e)) → contained (try_except body handler).
Proof.
  intros Hc Hh st. unfold try_except.
  destruct (Hc st) as (Hexit & Hin & l & Hlog & Hcons & Hprompts).
  destruct (body st) as [[a|e|n] st1]; simpl in *.
  - split; [done|]. split; [done|]. by exists l.
  - destruct (Hh e st1) as (Hexit' & Hin' & l' & Hlog' & Hcons' & Hprompts').
    split; [done|]. split; [congruence|].
    exists (l ++ l'). rewrite Hlog', Hlog, <- app_assoc. split; [done|].
    unfold constructions, prompts in *. rewrite !omap_app.
    by rewrite Hcons, Hcons', Hprompts, Hprompts'.
  - by destruct (Hexit n).
Qed.

Lemma contained_manual_search query days : contained (manual_search query days).
Proof.
  unfold manual_search. apply contained_try_except.
  - apply contained_bind; [by apply contained_request|]. intros results.
    apply contained_bind; [apply contained_lift|]. intros success.
    destruct (truthy success).
    + apply contained_bind; [apply contained_lift|]. intros total.
      apply contained_bind; [apply contained_lift|]. intros _. apply contained_ret.
    + apply contained_bind; [apply contained_lift|]. intros m.
      apply contained_bind; [apply contained_lift|]. intros _.
      apply contained_bind; [apply contained_lift|]. intros m'. apply contained_ret.
  - intros e. apply contained_ret.
Qed.

Lemma contained_run_agent r m h : contained (run_agent r m h).
Proof. by apply contained_request. Qed.

Lemma contained_run_stages topic p s : contained (run_stages topic p s).
Proof.
  unfold run_stages.
  apply contained_bind; [apply contained_lift|]. intros digest.
  apply contained_bind; [apply contained_run_agent|]. intros r1.
  apply contained_bind; [apply contained_lift|]. intros _.
  apply contained_bind; [apply contained_lift|]. intros t1.
  apply contained_bind; [apply contained_run_agent|]. intros r2.
  apply contained_bind; [apply contained_lift|]. intros _.
  apply contained_bind; [apply contained_lift|]. intros t2.
  apply contained_bind; [apply contained_run_agent|]. intros r3.
  apply contained_bind; [apply contained_lift|]. intros t3.
  apply contained_bind; [apply contained_run_agent|]. intros r4.
  apply contained_ret.
Qed.

Lemma contained_run_pipeline topic : contained (run_pipeline topic).
Proof.
  unfold run_pipeline.
  apply contained_bind; [apply contained_manual_search|]. intros p.
  apply contained_bind; [apply contained_manual_search|]. intros s.
  apply contained_run_stages.
Qed.

(** X1. A run of the pipeline never ends the process with [sys.exit],
    reads nothing from standard input and constructs nothing: all it adds
    to the log are searches and agent runs. *)
Theorem run_pipeline_keeps_to_itself topic st :
  (∀ code, (run_pipeline topic st).1 ≠ Exited code) ∧
  stdin (run_pipeline topic st).2 = stdin st ∧
  ∃ l, log (run_pipeline topic st).2 = log st ++ l ∧
       constructions l = [] ∧ prompts l = [].
Proof.
  revert st. change (contained (run_pipeline topic)). unfold run_pipeline.
  apply contained_bind; [apply contained_manual_search|]. intros primary.
  apply contained_bind; [apply contained_manual_search|]. intros secondary.
  apply contained_run_stages.
Qed.

(** *** The order of the stages *)

Lemma agent_calls_stage_events n topic digest c1 c2 c3 :
  agent_calls (take n (stage_events topic digest c1 c2 c3)) = take n stage_order.
Proof. by do 5 (destruct n as [|n]; [done|]). Qed.

Lemma take_stage_order n : take n stage_order = take (n `min` 4) stage_order.
Proof.
  do 4 (destruct n as [|n]; [done|]).
  replace (S (S (S (S n))) `min` 4) with 4 by lia. by destruct n.
Qed.

(** X2. In every run the two searches come first and the agents are then
    called in the order researcher, insights expert, writer, editor, each
    at most once; a run stops at the first step that raises, and a run
    that returns has called all four. *)
Theorem stages_run_in_order topic st :
  ∃ n l,
    n ≤ 4 ∧
    log (run_pipeline topic st).2
    = log st ++ [ESearch (primary_search_input topic);
                 ESearch (secondary_search_input topic)] ++ l ∧
    searches l = [] ∧
    agent_calls l = take n [Researcher; InsightsExpert; Writer; Editor] ∧
    length l = n ∧
    (∀ res, (run_pipeline topic st).1 = Ret res → n = 4).
Proof.
  destruct (run_pipeline_log topic st) as (l & Hlog & Hl). cbv zeta in Hl.
  destruct (run_pipeline topic st) as [o st'] eqn:Hrun. simpl in *.
  destruct o as [res|e|code].
  - rewrite run_pipeline_eq in Hrun. cbv zeta in Hrun.
    apply run_stages_ret in Hrun
      as (digest & r1 & r2 & r3 & r4 & t1 & t2 & t3 & w1 & w2 & w3 & w4
          & _ & _ & _ & _ & _ & _ & _ & _ & _ & _ & Hlog').
    rewrite !log_record, <- !app_assoc in Hlog'. simpl in Hlog'.
    exists 4. eexists. split; [lia|]. split; [exact Hlog'|]. by repeat (split; [done|]).
  - destruct (build_search_summary _ _) as [digest|e'].
    + destruct Hl as (n & c1 & c2 & c3 & Hn & ->).
      exists (n `min` 4). eexists. split; [lia|]. split; [exact Hlog|].
      split; [apply searches_stage_events|].
      split; [by rewrite agent_calls_stage_events, take_stage_order|].
      split; [rewrite length_take; reflexivity | done].
    + subst l. exists 0, []. split; [lia|]. by repeat (split; [done|]).
  - destruct (build_search_summary _ _) as [digest|e'].
    + destruct Hl as (n & c1 & c2 & c3 & Hn & ->).
      exists (n `min` 4). eexists. split; [lia|]. split; [exact Hlog|].
      split; [apply searches_stage_events|].
      split; [by rewrite agent_calls_stage_events, take_stage_order|].
      split; [rewrite length_take; reflexivity | done].
    + subst l. exists 0, []. split; [lia|]. by repeat (split; [done|]).
Qed.

(** X3. Every agent is run on an empty chat message and a fresh history
    of exactly one turn, whose role is user: no stage is given the turns
    of an earlier stage. *)
Theorem each_stage_gets_one_user_turn topic w typed r chat_message history :
  EAgentRun r chat_message history ∈ log (run_pipeline topic (initial w typed)).2 →
  chat_message = "" ∧ ∃ text, history = [{| role := "user"; content := text |}].
Proof.
  destruct (run_pipeline_log topic (initial w typed)) as (l & -> & Hl).
  cbv zeta in Hl. cbn [log initial app].
  intros Hin. apply elem_of_cons in Hin as [Hin|Hin]; [done|].
  apply elem_of_cons in Hin as [Hin|Hin]; [done|].
  destruct (build_search_summary _ _) as [digest|e];
    [| subst l; by apply elem_of_nil in Hin].
  destruct Hl as (n & c1 & c2 & c3 & _ & ->).
  apply subseteq_take in Hin. unfold stage_events in Hin.
  repeat (apply elem_of_cons in Hin as [Hin|Hin];
          [injection Hin as -> -> ->; split; [done | by eexists] |]).
  by apply elem_of_nil in Hin.
Qed.

(** X4. In a run that returns, each later prompt embeds exactly the text
    returned under the key of the stage before it, as [str] renders it:
    the insights prompt the research text, the writing prompt the insights
    text, the editing prompt the draft; and the log holds the two searches
    and these four agent runs, nothing else. *)
Theorem texts_are_passed_down topic st res st' :
  run_pipeline topic st = (Ret res, st') →
  ∃ digest research insights draft final research_text insights_text draft_text,
    res = pipeline_result research insights draft final ∧
    py_str research = Ok research_text ∧
    py_str insights = Ok insights_text ∧
    py_str draft = Ok draft_text ∧
    log st'
    = log st
      ++ [ESearch (primary_search_input topic);
          ESearch (secondary_search_input topic);
          EAgentRun Researcher "" [user_turn (research_message topic digest)];
          EAgentRun InsightsExpert ""
            [user_turn (insights_message topic research_text digest)];
          EAgentRun Writer "" [user_turn (writing_message topic insights_text)];
          EAgentRun Editor "" [user_turn (editing_message topic draft_text)]].
Proof.
  rewrite run_pipeline_eq. cbv zeta.
  intros (digest & r1 & r2 & r3 & r4 & t1 & t2 & t3 & w1 & w2 & w3 & w4
          & _ & _ & Ht1 & _ & Ht2 & _ & Ht3 & _ & -> & _ & Hlog)%run_stages_ret.
  exists digest, (extract_content r1), (extract_content r2), (extract_content r3),
    (extract_content r4), t1, t2, t3.
  split; [done|]. split; [done|]. split; [done|]. split; [done|].
  rewrite Hlog, !log_record, <- !app_assoc. done.
Qed.


(** *** Failures inside a run *)

Lemma agent_calls_after_searches st s1 w1 s2 w2 l :
  agent_calls (log (record (ESearch s2) w2 (record (ESearch s1) w1 st)) ++ l)
  = agent_calls (log st) ++ agent_calls l.
Proof.
  rewrite !log_record. unfold agent_calls. rewrite !omap_app. simpl.
  by rewrite !app_nil_r.
Qed.

(** X5. An exception raised by an agent is not handled in the pipeline:
    the run ends with that same exception and the agents of the later
    stages are never called.  This holds at each of the four stages, the
    texts of the stages before it having been rendered. *)
Theorem agent_failure_propagates topic st digest e :
  let first := tool_run (primary_search_input topic) (world st) in
  let second := tool_run (secondary_search_input topic) first.1 in
  let research_prompt := [user_turn (research_message topic digest)] in
  let insights_prompt t1 := [user_turn (insights_message topic t1 digest)] in
  let writing_prompt t2 := [user_turn (writing_message topic t2)] in
  let editing_prompt t3 := [user_turn (editing_message topic t3)] in
  build_search_summary (search_answer first.2) (search_answer second.2) = Ok digest →
  (∀ w1,
     agent_run Researcher "" research_prompt second.1 = (w1, Raise e) →
     (run_pipeline topic st).1 = Raised e ∧
     agent_calls (log (run_pipeline topic st).2)
     = agent_calls (log st) ++ [Researcher]) ∧
  (∀ w1 r1 t1 w2,
     agent_run Researcher "" research_prompt second.1 = (w1, Ok r1) →
     count_tool_calls r1 = Ok () →
     py_str (extract_content r1) = Ok t1 →
     agent_run InsightsExpert "" (insights_prompt t1) w1 = (w2, Raise e) →
     (run_pipeline topic st).1 = Raised e ∧
     agent_calls (log (run_pipeline topic st).2)
     = agent_calls (log st) ++ [Researcher; InsightsExpert]) ∧
  (∀ w1 r1 t1 w2 r2 t2 w3,
     agent_run Researcher "" research_prompt second.1 = (w1, Ok r1) →
     count_tool_calls r1 = Ok () →
     py_str (extract_content r1) = Ok t1 →
     agent_run InsightsExpert "" (insights_prompt t1) w1 = (w2, Ok r2) →
     count_tool_calls r2 = Ok () →
     py_str (extract_content r2) = Ok t2 →
     agent_run Writer "" (writing_prompt t2) w2 = (w3, Raise e) →
     (run_pipeline topic st).1 = Raised e ∧
     agent_calls (log (run_pipeline topic st).2)
     = agent_calls (log st) ++ [Researcher; InsightsExpert; Writer]) ∧
  (∀ w1 r1 t1 w2 r2 t2 w3 r3 t3 w4,
     agent_run Researcher "" research_prompt second.1 = (w1, Ok r1) →
     count_tool_calls r1 = Ok () →
     py_str (extract_content r1) = Ok t1 →
     agent_run InsightsExpert "" (insights_prompt t1) w1 = (w2, Ok r2) →
     count_tool_calls r2 = Ok () →
     py_str (extract_content r2) = Ok t2 →
     agent_run Writer "" (writing_prompt t2) w2 = (w3, Ok r3) →
     py_str (extract_content r3) = Ok t3 →
     agent_run Editor "" (editing_prompt t3) w3 = (w4, Raise e) →
     (run_pipeline topic st).1 = Raised e ∧
     agent_calls (log (run_pipeline topic st).2)
     = agent_calls (log st) ++ [Researcher; InsightsExpert; Writer; Editor]).
Proof.
  intros first second research_prompt insights_prompt writing_prompt editing_prompt Hd.
  subst research_prompt insights_prompt writing_prompt editing_prompt.
  rewrite run_pipeline_eq. fold first second.
  split; [|split; [|split]].
  - intros w1 H1. step_digest. rewrite Hd. cbn [lift].
    step_agent_with H1. split; [done|]. cbn [snd].
    by rewrite !(log_record (EAgentRun _ _ _)), agent_calls_after_searches.
  - intros w1 r1 t1 w2 H1 Hc1 Ht1 H2. step_digest. rewrite Hd. cbn [lift].
    step_agent_with H1. step_count_with Hc1. step_render_with Ht1. step_agent_with H2.
    split; [done|]. cbn [snd].
    by rewrite !(log_record (EAgentRun _ _ _)), <- !app_assoc, agent_calls_after_searches.
  - intros w1 r1 t1 w2 r2 t2 w3 H1 Hc1 Ht1 H2 Hc2 Ht2 H3.
    step_digest. rewrite Hd. cbn [lift].
    step_agent_with H1. step_count_with Hc1. step_render_with Ht1. step_agent_with H2.
    step_count_with Hc2. step_render_with Ht2. step_agent_with H3.
    split; [done|]. cbn [snd].
    by rewrite !(log_record (EAgentRun _ _ _)), <- !app_assoc, agent_calls_after_searches.
  - intros w1 r1 t1 w2 r2 t2 w3 r3 t3 w4 H1 Hc1 Ht1 H2 Hc2 Ht2 H3 Ht3 H4.
    step_digest. rewrite Hd. cbn [lift].
    step_agent_with H1. step_count_with Hc1. step_render_with Ht1. step_agent_with H2.
    step_count_with Hc2. step_render_with Ht2. step_agent_with H3.
    step_render_with Ht3. step_agent_with H4.
    split; [done|]. cbn [snd].
    by rewrite !(log_record (EAgentRun _ _ _)), <- !app_assoc, agent_calls_after_searches.
Qed.

Lemma count_tool_calls_unsized r v :
  attrs r !! "tool_calls" = Some v →
  truthy v = true →
  count_tool_calls r = (py_len v ≫= fun _ => Ok ()).
Proof.
  intros Hv Ht. unfold count_tool_calls, hasattr, getattr. rewrite Hv. simpl.
  by rewrite Ht.
Qed.

(** X6. The count of tool calls that is narrated after the first two
    stages can end a run.  It is harmless when the answer has no
    tool_calls attribute, or a falsy one, or a list; but a tool_calls
    attribute holding [True] or a number other than zero makes [len] raise
    a TypeError, and when that happens after the research stage the run
    ends with it and the insights agent is never called. *)
Theorem tool_call_count_can_abort topic st digest :
  let first := tool_run (primary_search_input topic) (world st) in
  let second := tool_run (secondary_search_input topic) first.1 in
  (∀ r, attrs r !! "tool_calls" = None → count_tool_calls r = Ok ()) ∧
  (∀ r v, attrs r !! "tool_calls" = Some v → truthy v = false →
          count_tool_calls r = Ok ()) ∧
  (∀ r l, attrs r !! "tool_calls" = Some (PList l) → count_tool_calls r = Ok ()) ∧
  (∀ r, attrs r !! "tool_calls" = Some (PBool true) →
        count_tool_calls r = Raise (TypeError "object of type 'bool' has no len()")) ∧
  (∀ r z, attrs r !! "tool_calls" = Some (PInt z) → z ≠ 0%Z →
          count_tool_calls r = Raise (TypeError "object of type 'int' has no len()")) ∧
  (∀ w1 r1 e,
     build_search_summary (search_answer first.2) (search_answer second.2) = Ok digest →
     agent_run Researcher "" [user_turn (research_message topic digest)] second.1
       = (w1, Ok r1) →
     count_tool_calls r1 = Raise e →
     (run_pipeline topic st).1 = Raised e ∧
     agent_calls (log (run_pipeline topic st).2) = agent_calls (log st) ++ [Researcher]).
Proof.
  intros first second.
  split; [|split; [|split; [|split; [|split]]]].
  - intros r Hr. unfold count_tool_calls, hasattr. rewrite Hr.
    by rewrite bool_decide_false by (by intros [? ?]).
  - intros r v Hv Ht. unfold count_tool_calls, getattr. rewrite Hv. simpl.
    by rewrite Ht, andb_false_r.
  - intros r l Hr. destruct l as [|x l].
    + unfold count_tool_calls, getattr. rewrite Hr. simpl. by rewrite andb_false_r.
    + by rewrite (count_tool_calls_unsized r (PList (x :: l))).
  - intros r Hr. by rewrite (count_tool_calls_unsized r (PBool true)).
  - intros r z Hr Hz. rewrite (count_tool_calls_unsized r (PInt z)); [done..|].
    simpl. by apply negb_true_iff, Z.eqb_neq.
  - intros w1 r1 e Hd H1 Hc1. rewrite run_pipeline_eq. fold first second.
    step_digest. rewrite Hd. cbn [lift].
    step_agent_with H1. step_count_with Hc1.
    split; [done|]. cbn [snd].
    by rewrite !(log_record (EAgentRun _ _ _)), agent_calls_after_searches.
Qed.

(** X7. When the digest cannot be built (a search answered as successful
    but with results that cannot be rendered), the run ends with the
    exception of the rendering right after the two searches: no agent is
    called. *)
Theorem unrenderable_results_stop_the_run topic st e :
  let first := tool_run (primary_search_input topic) (world st) in
  let second := tool_run (secondary_search_input topic) first.1 in
  build_search_summary (search_answer first.2) (search_answer second.2) = Raise e →
  (run_pipeline topic st).1 = Raised e ∧
  log (run_pipeline topic st).2
  = log st ++ [ESearch (primary_search_input topic);
               ESearch (secondary_search_input topic)].
Proof.
  intros first second Hd. rewrite run_pipeline_eq. fold first second.
  step_digest. rewrite Hd. cbn [lift]. split; [done|].
  cbn [snd]. by rewrite !log_record, <- !app_assoc.
Qed.

Lemma str_take_all n s : String.length s ≤ n → str_take n s = s.
Proof.
  unfold str_take. revert n. induction s as [|c s IH]; intros [|n] Hlen; simpl in *;
    try done; try lia.
  by rewrite IH by lia.
Qed.

(** X8. When the whole digest has at most 1000 characters, the insights
    prompt holds it in full, followed by the three dots. *)
Theorem short_digest_reaches_stage2_whole topic w typed digest h :
  let first := tool_run (primary_search_input topic) w in
  let second := tool_run (secondary_search_input topic) first.1 in
  build_search_summary (search_answer first.2) (search_answer second.2) = Ok digest →
  String.length digest ≤ 1000 →
  h ∈ histories_of InsightsExpert (log (run_pipeline topic (initial w typed)).2) →
  ∃ research research_text,
    py_str research = Ok research_text ∧
    h = [user_turn
           ("Add insights to the following research about " +:+ topic +:+ "."
            +:+ nl +:+ nl
            +:+ "Research to analyze:" +:+ nl +:+ research_text +:+ nl +:+ nl
            +:+ "Also consider these additional search results:" +:+ nl
            +:+ digest +:+ "..." +:+ nl +:+ nl
            +:+ "If you need any specific information, use the search_and_contents tool with a specific query.")].
Proof.
  intros first second Hd Hlen Hin.
  destruct (run_pipeline_log topic (initial w typed)) as (l & Hlog & Hl).
  cbn [world log initial app] in Hlog, Hl. fold first second in Hl.
  rewrite Hd in Hl. destruct Hl as (n & c1 & c2 & c3 & _ & ->).
  rewrite Hlog in Hin.
  change (histories_of InsightsExpert
            (ESearch (primary_search_input topic)
             :: ESearch (secondary_search_input topic)
             :: take n (stage_events topic digest c1 c2 c3)))
    with (histories_of InsightsExpert (take n (stage_events topic digest c1 c2 c3)))
    in Hin.
  apply insights_stage_events in Hin as ->.
  exists (PStr c1), c1. split; [done|].
  unfold insights_message. by rewrite str_take_all.
Qed.


(** *** The shape of the digest *)

Lemma render_loop_blocks ds : ∀ i summary,
  Forall (fun d => record_renders (PDict d) = true) ds →
  render_loop i (PDict <$> ds) summary = Ok (summary +:+ blocks i ds).
Proof.
  induction ds as [|d ds IH]; intros i summary Hds.
  - simpl. by rewrite app_empty_r.
  - inversion Hds as [|? ? [Hd Hf]%andb_true_iff Hds']; subst. simpl.
    rewrite render_result_record, bind_ok by done.
    rewrite IH by done. unfold record_block. by rewrite !app_assoc_str.
Qed.

Lemma render_section_blocks lead query text ds summary :
  py_str query = Ok text →
  Forall (fun d => record_renders (PDict d) = true) ds →
  render_section lead (search_response query (PDict <$> ds)) summary
  = Ok (summary +:+ section_title lead (Some query) (length ds) +:+ blocks 0 ds).
Proof.
  intros Hq Hds. unfold render_section, search_response.
  rewrite !py_get_dict. simplify_map_eq. rewrite Hq, bind_ok.
  rewrite render_loop_blocks by done. rewrite length_fmap.
  unfold section_title, field_as_rendered. rewrite Hq. simpl.
  by rewrite !app_assoc_str.
Qed.

(** X9. For two successful responses carrying result records that
    render, with queries that render, the digest is the header, then for
    the primary and for the secondary response a title line giving the
    query and the number of records followed by one block per record, in
    the order of the response; the blocks are numbered from 1 in each
    section, and the secondary title line is set off by one more
    newline. *)
Theorem digest_of_two_responses query1 text1 ds1 query2 text2 ds2 :
  py_str query1 = Ok text1 →
  py_str query2 = Ok text2 →
  Forall (fun d => record_renders (PDict d) = true) ds1 →
  Forall (fun d => record_renders (PDict d) = true) ds2 →
  build_search_summary (search_response query1 (PDict <$> ds1))
                       (search_response query2 (PDict <$> ds2))
  = Ok (("SEARCH RESULTS:" +:+ nl +:+ nl)
        +:+ ("Search for '" +:+ text1 +:+ "' found "
             +:+ str_nat (length ds1) +:+ " results:" +:+ nl +:+ nl)
        +:+ blocks 0 ds1
        +:+ (nl +:+ "Search for '" +:+ text2 +:+ "' found "
             +:+ str_nat (length ds2) +:+ " results:" +:+ nl +:+ nl)
        +:+ blocks 0 ds2) ∧
  (∀ i d rest, blocks i (d :: rest) = record_block i d +:+ blocks (S i) rest) ∧
  (∀ i d,
     record_block i d
     = ("[Result " +:+ str_nat (i + 1) +:+ "]" +:+ nl
        +:+ "Title: " +:+ field_as_rendered (d !! "title") +:+ nl
        +:+ "URL: " +:+ field_as_rendered (d !! "url") +:+ nl
        +:+ "Published: " +:+ field_as_rendered (d !! "published_date") +:+ nl)
       +:+ match d !! "content_preview" with
           | Some (PStr s) => preview_as_rendered s
           | _ => ""
           end).
Proof.
  intros Hq1 Hq2 H1 H2. split; [|split].
  - unfold build_search_summary.
    rewrite (render_section_blocks "" query1 text1), bind_ok by done.
    rewrite (render_section_blocks nl query2 text2) by done.
    unfold section_title, field_as_rendered, digest_header. rewrite Hq1, Hq2. simpl.
    by rewrite !app_assoc_str.
  - done.
  - done.
Qed.

(** X10. Edge cases of a successful response whose query renders.
    Without a results entry the section is the title line alone,
    announcing 0 results (and the query reads None when the response has
    no search_query).  With a results entry holding [None] the rendering
    raises a TypeError from [len].  With a list whose first item is not a
    dict (a string, say) it raises the AttributeError of the missing
    [get]. *)
Theorem odd_results_entries lead (d : gmap string pyval) summary :
  truthy (default PNone (d !! "success")) = true →
  field_renders (d !! "search_query") = true →
  (d !! "results" = None →
   render_section lead (PDict d) summary
   = Ok (summary +:+ lead +:+ "Search for '" +:+ field_as_rendered (d !! "search_query")
         +:+ "' found 0 results:" +:+ nl +:+ nl)) ∧
  (d !! "results" = Some PNone →
   render_section lead (PDict d) summary
   = Raise (TypeError "object of type 'NoneType' has no len()")) ∧
  (∀ v rest, d !! "results" = Some (PList (v :: rest)) →
     (∀ fields, v ≠ PDict fields) →
     render_section lead (PDict d) summary = Raise (AttributeError v "get")).
Proof.
  intros Hs Hq. unfold render_section.
  rewrite !py_get_dict, bind_ok, Hs, bind_ok. cbv beta.
  rewrite (field_as_rendered_get d "search_query" Hq), !bind_ok. cbv beta.
  split; [|split].
  - intros ->. simpl. reflexivity.
  - by intros ->.
  - intros v rest -> Hv. simpl.
    unfold render_result. destruct v as [| | | | |fields]; try done.
    by destruct (Hv fields).
Qed.

(** X11. The preview line of a record whose title, url and date render.
    A preview that is absent or falsy ([None], the empty text, 0, [False],
    an empty list) leaves the record without preview line.  A preview that
    is a number other than zero, or [True], makes the rendering of the
    record raise a TypeError, since such a value cannot be sliced. *)
Theorem preview_line_edge_cases i (d : gmap string pyval) summary :
  fields_render d = true →
  (truthy (default PNone (d !! "content_preview")) = false →
   render_result i (PDict d) summary = Ok (summary +:+ record_head i d)) ∧
  (∀ z, d !! "content_preview" = Some (PInt z) → z ≠ 0%Z →
     render_result i (PDict d) summary
     = Raise (TypeError "'int' object is not subscriptable")) ∧
  (d !! "content_preview" = Some (PBool true) →
   render_result i (PDict d) summary
   = Raise (TypeError "'bool' object is not subscriptable")).
Proof.
  intros Hf. rewrite render_result_dict by done. cbv zeta. split; [|split].
  - by intros ->.
  - intros z -> Hz. simpl. apply Z.eqb_neq in Hz. by rewrite Hz.
  - by intros ->.
Qed.

(** *** More on [manual_search] *)

(** X12. What [manual_search] returns is always a dict with a success
    entry, so the later [get] calls of the pipeline on it cannot fail; it
    is flagged as a success only when it is the tool's own answer, handed
    back unchanged.  Each call makes exactly one request to the tool, for
    at most 5 results, and reads nothing from standard input. *)
Theorem manual_search_returns_a_dict query days st :
  let search_input := {| search_query := query; days_ago := days; max_results := 5 |} in
  ∃ d,
    (manual_search query days st).1 = Ret (PDict d) ∧
    is_Some (d !! "success") ∧
    (flagged (PDict d) = true → (tool_run search_input (world st)).2 = Ok (PDict d)) ∧
    log (manual_search query days st).2 = log st ++ [ESearch search_input] ∧
    world (manual_search query days st).2 = (tool_run search_input (world st)).1 ∧
    stdin (manual_search query days st).2 = stdin st.
Proof.
  intros search_input. rewrite manual_search_spec. fold search_input. cbn [fst snd].
  assert (Hfail : ∀ m, ∃ d, failure_dict m = PDict d ∧ is_Some (d !! "success") ∧
                            flagged (PDict d) = false).
  { intros m. eexists. split; [reflexivity|]. split; [by rewrite lookup_insert_eq|].
    apply flagged_failure_dict. }
  set (answer := (tool_run search_input (world st)).2).
  assert (Hd : ∃ d, search_answer answer = PDict d ∧ is_Some (d !! "success") ∧
                    (flagged (PDict d) = true → answer = Ok (PDict d))).
  { destruct answer as [v|e]; simpl.
    - destruct v as [| | | | |d];
        try (match goal with
             | |- ∃ d', failure_dict ?m = _ ∧ _ =>
                 destruct (Hfail m) as (d0 & -> & Hsome & Hflag); exists d0;
                 split; [done|]; split; [done | congruence]
             end).
      unfold narrated.
      destruct (flagged (PDict d)) eqn:Hf.
      + destruct (py_str _) as [text|e].
        * exists d. split; [done|]. split; [|done].
          unfold flagged in Hf. rewrite py_get_dict in Hf.
          by destruct (d !! "success").
        * destruct (Hfail (PStr (exn_msg e))) as (d0 & -> & Hsome & Hflag).
          exists d0. split; [done|]. split; [done | congruence].
      + destruct (py_str _) as [text|e].
        * destruct (Hfail (default (PStr "Unknown error") (d !! "error_message")))
            as (d0 & -> & Hsome & Hflag).
          exists d0. split; [done|]. split; [done | congruence].
        * destruct (Hfail (PStr (exn_msg e))) as (d0 & -> & Hsome & Hflag).
          exists d0. split; [done|]. split; [done | congruence].
    - destruct (Hfail (PStr (exn_msg e))) as (d0 & -> & Hsome & Hflag).
      exists d0. split; [done|]. split; [done | congruence]. }
  destruct Hd as (d & -> & Hsome & Hflag). exists d. by repeat (split; [done|]).
Qed.



(** *** Start-up *)

Lemma request_eq {A} e (call : W → W * fallible A) st :
  request e call st = lift (call (world st)).2 (record e (call (world st)).1 st).
Proof. unfold request. by destruct (call (world st)). Qed.

Ltac step_construct w e Heq :=
  match goal with
  | |- context [(request ?ev ?call ≫= ?f) ?st] =>
      rewrite (M_bind_eq f (request ev call) st), (request_eq ev call st);
      rewrite ?world_record;
      destruct (call _) as [w [[]|e]] eqn:Heq; cbn [lift fst snd]
  end.

Lemma init_shape environ key st out :
  NewsletterAgents_init environ key st = out →
  let key' := if is_set key then key else getenv environ "EXA_API_KEY" in
  ∃ n, 1 ≤ n ≤ 5 ∧
    log out.2 = log st ++ (EConstruct <$> take n (init_components key')) ∧
    stdin out.2 = stdin st ∧
    (∀ code, out.1 ≠ Exited code) ∧
    (out.1 = Ret () → n = 5).
Proof.
  unfold NewsletterAgents_init. cbv zeta.
  step_construct w1 e1 H1;
    [| intros <-; exists 1; split; [lia|]; cbn [fst snd]; rewrite log_record;
       by repeat (split; [done|])].
  step_construct w2 e2 H2;
    [| intros <-; exists 2; split; [lia|]; cbn [fst snd]; rewrite !log_record, <- !app_assoc;
       by repeat (split; [done|])].
  step_construct w3 e3 H3;
    [| intros <-; exists 3; split; [lia|]; cbn [fst snd]; rewrite !log_record, <- !app_assoc;
       by repeat (split; [done|])].
  step_construct w4 e4 H4;
    [| intros <-; exists 4; split; [lia|]; cbn [fst snd]; rewrite !log_record, <- !app_assoc;
       by repeat (split; [done|])].
  rewrite request_eq, world_record.
  destruct (construct (Agent Editor) w4) as [w5 [[]|e5]] eqn:H5; cbn [lift fst snd];
    intros <-; exists 5; (split; [lia|]); cbn [fst snd]; rewrite !log_record, <- !app_assoc;
    by repeat (split; [done|]).
Qed.

Lemma init_ok environ key st :
  (∀ c w, ∃ w', construct c w = (w', Ok ())) →
  let key' := if is_set key then key else getenv environ "EXA_API_KEY" in
  ∃ st', NewsletterAgents_init environ key st = (Ret (), st') ∧
         log st' = log st ++ (EConstruct <$> init_components key') ∧
         stdin st' = stdin st.
Proof.
  intros Hc. unfold NewsletterAgents_init. cbv zeta.
  do 4 (match goal with
        | |- context [(request ?ev (construct ?c) ≫= ?f) ?st0] =>
            rewrite (M_bind_eq f (request ev (construct c)) st0),
              (request_eq ev (construct c) st0);
            rewrite ?world_record;
            match goal with
            | |- context [construct c ?x] =>
                let w := fresh "w" in
                destruct (Hc c x) as [w ->]; cbn [lift fst snd]
            end
        end).
  rewrite request_eq, world_record.
  match goal with
  | |- context [construct (Agent Editor) ?x] =>
      destruct (Hc (Agent Editor) x) as [w' ->]; cbn [lift fst snd]
  end.
  eexists. split; [reflexivity|]. split; [|done].
  rewrite !log_record, <- !app_assoc. done.
Qed.

(** X14. [NewsletterAgents.__init__] constructs the search tool first,
    with the key it was given (or, when that is empty or absent, with the
    key of the environment), then the researcher, the insights expert, the
    writer and the editor.  It stops at the first constructor that raises,
    and it has constructed all five when it returns. *)
Theorem init_constructs_in_order environ key st :
  let out := NewsletterAgents_init environ key st in
  let key' := if is_set key then key else getenv environ "EXA_API_KEY" in
  ∃ n, 1 ≤ n ≤ 5 ∧
    log out.2
    = log st ++ (EConstruct <$>
                   take n [SearchTool key'; Agent Researcher; Agent InsightsExpert;
                           Agent Writer; Agent Editor]) ∧
    stdin out.2 = stdin st ∧
    (∀ code, out.1 ≠ Exited code) ∧
    (out.1 = Ret () → n = 5) ∧
    ((∀ c w, ∃ w', construct c w = (w', Ok ())) → out.1 = Ret ()).
Proof.
  intros out key'.
  destruct (init_shape environ key st out eq_refl) as (n & Hn & Hlog & Hin & Hexit & Hret).
  exists n. repeat (split; [done|]).
  intros Hc. destruct (init_ok environ key st Hc) as (st' & Hrun & _).
  subst out. by rewrite Hrun.
Qed.


Lemma main_eq environ argv :
  main environ argv =
  ((if negb (is_set (getenv environ "EXA_API_KEY")) then
      proceed ← input gate_prompt;
      if negb (String.eqb (lower proceed) "y") then sys_exit 1 else mret ()
    else mret ())
   ≫= fun _ => after_gate environ argv).
Proof. reflexivity. Qed.

Lemma lower_char_y c : lower_char c = "y"%char → c = "y"%char ∨ c = "Y"%char.
Proof.
  destruct c as [[] [] [] [] [] [] [] []]; vm_compute; intros Hc;
    try discriminate; auto.
Qed.

Lemma lower_y_iff s : lower s = "y" ↔ s = "y" ∨ s = "Y".
Proof.
  split; [|by intros [-> | ->]].
  destruct s as [|c [|c' s']]; simpl; try done.
  intros [= Hc]. by destruct (lower_char_y c Hc) as [-> | ->]; [left | right].
Qed.

(** The guarded run always returns: whatever the pipeline raises is taken
    by the handler, and so is the end of input at the last prompt. *)
Lemma guarded_run_returns user_query st :
  ∃ tail,
    (guarded_run user_query st).1 = Ret () ∧
    log (guarded_run user_query st).2 = log (run_pipeline user_query st).2 ++ tail ∧
    (tail = [] ∨ tail = [EInput details_prompt]).
Proof.
  unfold guarded_run, try_except. rewrite M_bind_eq.
  destruct (contained_run_pipeline user_query st) as (Hexit & _).
  destruct (run_pipeline user_query st) as [[res|e|code] st1]; cbn [fst snd] in *.
  - step_render final e Hfinal; [|exists []; by rewrite app_nil_r; auto].
    rewrite M_bind_eq. unfold input.
    destruct (stdin st1) as [|line rest]; cbn [fst snd log];
      [exists [EInput details_prompt]; auto|].
    destruct (String.eqb (lower line) "y");
      [|exists [EInput details_prompt]; auto].
    step_render research e1 H1; [|exists [EInput details_prompt]; auto].
    step_render insights e2 H2; [|exists [EInput details_prompt]; auto].
    step_render draft e3 H3; exists [EInput details_prompt]; auto.
  - exists []. by rewrite app_nil_r; auto.
  - by destruct (Hexit code).
Qed.

Lemma after_gate_no_exit environ argv st code :
  (after_gate environ argv st).1 ≠ Exited code.
Proof.
  unfold after_gate. rewrite M_bind_eq.
  destruct (init_shape environ (getenv environ "EXA_API_KEY") st _ eq_refl)
    as (n & _ & _ & _ & Hexit & _).
  destruct (NewsletterAgents_init _ _ st) as [[[]|e|c] st1]; cbn [fst] in *;
    [| done | by destruct (Hexit c)].
  rewrite M_bind_eq.
  destruct (1 <? length argv).
  - unfold mret, M_mret, M_ret.
    destruct (guarded_run_returns (join " " (tail argv)) st1) as (extra & Hret & _).
    by rewrite Hret.
  - unfold input. destruct (stdin st1) as [|line rest]; [done|].
    match goal with
    | |- (guarded_run ?q ?s).1 ≠ _ =>
        destruct (guarded_run_returns q s) as (extra & Hret & _); by rewrite Hret
    end.
Qed.

Lemma plain_stage_events n topic digest c1 c2 c3 :
  constructions (take n (stage_events topic digest c1 c2 c3)) = [] ∧
  prompts (take n (stage_events topic digest c1 c2 c3)) = [].
Proof. by do 5 (destruct n as [|n]; [done|]). Qed.

Lemma run_pipeline_extends topic st :
  ∃ l, log (run_pipeline topic st).2 = log st ++ l ∧
       constructions l = [] ∧ prompts l = [] ∧
       searches l = [primary_search_input topic; secondary_search_input topic].
Proof.
  destruct (run_pipeline_log topic st) as (l & Hlog & Hl). cbv zeta in Hl.
  eexists. split; [exact Hlog|].
  destruct (build_search_summary _ _).
  - destruct Hl as (n & c1 & c2 & c3 & _ & ->).
    destruct (plain_stage_events n topic a c1 c2 c3) as [Hc Hp].
    split; [exact Hc|]. split; [exact Hp|].
    change (searches ([ESearch (primary_search_input topic);
                       ESearch (secondary_search_input topic)]
                      ++ take n (stage_events topic a c1 c2 c3)))
      with (primary_search_input topic :: secondary_search_input topic
            :: searches (take n (stage_events topic a c1 c2 c3))).
    by rewrite searches_stage_events.
  - by subst l.
Qed.

Lemma guarded_run_extends user_query st :
  ∃ l, log (guarded_run user_query st).2 = log st ++ l ∧
       constructions l = [] ∧
       searches l = [primary_search_input user_query; secondary_search_input user_query].
Proof.
  destruct (guarded_run_returns user_query st) as (tail & _ & Hlog & Htail).
  destruct (run_pipeline_extends user_query st) as (l & Hl & Hc & _ & Hs).
  exists (l ++ tail). rewrite Hlog, Hl, <- app_assoc. split; [done|].
  unfold constructions, searches in *. rewrite !omap_app, Hc, Hs.
  by destruct Htail as [-> | ->].
Qed.

Lemma after_gate_first_construction environ argv st :
  ∃ l, log (after_gate environ argv st).2
       = log st ++ EConstruct (SearchTool (getenv environ "EXA_API_KEY")) :: l.
Proof.
  unfold after_gate. rewrite M_bind_eq.
  destruct (init_shape environ (getenv environ "EXA_API_KEY") st _ eq_refl)
    as (n & Hn & Hlog & _).
  assert (Hkey : (if is_set (getenv environ "EXA_API_KEY")
                  then getenv environ "EXA_API_KEY"
                  else getenv environ "EXA_API_KEY") = getenv environ "EXA_API_KEY")
    by (by destruct (is_set _)).
  rewrite Hkey in Hlog.
  destruct n as [|n]; [lia|]. cbn [take init_components fmap list_fmap] in Hlog.
  destruct (NewsletterAgents_init _ _ st) as [[[]|e|c] st1]; cbn [fst snd] in *;
    [| by eexists | by eexists].
  rewrite M_bind_eq.
  assert (Hrest : ∀ q s, log s = log st1 ∨ (∃ p, log s = log st1 ++ [EInput p]) →
            ∃ l, log (guarded_run q s).2
                 = log st ++ EConstruct (SearchTool (getenv environ "EXA_API_KEY")) :: l).
  { intros q s Hs. destruct (guarded_run_extends q s) as (l & -> & _).
    destruct Hs as [-> | [p ->]]; rewrite Hlog, <- ?app_assoc; simpl; by eexists. }
  destruct (1 <? length argv).
  - apply Hrest. by left.
  - unfold input. destruct (stdin st1) as [|line rest]; cbn [fst snd].
    + rewrite Hlog, <- app_assoc. simpl. by eexists.
    + apply Hrest. right. by eexists.
Qed.

(** X15. With the search credential absent or empty, the gate lets the
    start-up go on for exactly two answers, y and Y: for every other
    answer the process exits with status 1, and for these two it never
    does, and the first thing constructed is the search tool, with the
    (missing or empty) key of the environment. *)
Theorem gate_accepts_exactly_y environ argv w answer typed :
  is_set (getenv environ "EXA_API_KEY") = false →
  let out := main environ argv (initial w (answer :: typed)) in
  (out.1 = Exited 1 ↔ answer ≠ "y" ∧ answer ≠ "Y") ∧
  (answer = "y" ∨ answer = "Y" →
     (∀ code, out.1 ≠ Exited code) ∧
     ∃ l, log out.2
          = EInput "Do you want to proceed without web search? (y/n): "
            :: EConstruct (SearchTool (getenv environ "EXA_API_KEY")) :: l).
Proof.
  intros Hset out.
  assert (Hyes : answer = "y" ∨ answer = "Y" →
            out = after_gate environ argv
                    {| world := w; log := [EInput gate_prompt]; stdin := typed |}).
  { intros Hy%lower_y_iff. subst out. rewrite main_eq, M_bind_eq, Hset.
    cbn [negb]. rewrite M_bind_eq. cbn [input initial stdin log world app tail].
    by rewrite Hy. }
  assert (Hno : ¬ (answer = "y" ∨ answer = "Y") → out.1 = Exited 1).
  { intros Hn. subst out. rewrite main_eq, M_bind_eq, Hset.
    cbn [negb]. rewrite M_bind_eq. cbn [input initial stdin log world app tail].
    destruct (String.eqb (lower answer) "y") eqn:He; [|done].
    apply String.eqb_eq, lower_y_iff in He. by destruct Hn. }
  split; [split|].
  - intros Hexit. destruct (decide (answer = "y")) as [->|]; [|
      destruct (decide (answer = "Y")) as [->|]; [|done]].
    + rewrite Hyes in Hexit by auto. by apply after_gate_no_exit in Hexit.
    + rewrite Hyes in Hexit by auto. by apply after_gate_no_exit in Hexit.
  - intros [H1 H2]. apply Hno. by intros [|].
  - intros Hy. rewrite (Hyes Hy). split; [intros code; apply after_gate_no_exit|].
    apply (after_gate_first_construction environ argv
             {| world := w; log := [EInput gate_prompt]; stdin := typed |}).
Qed.

Lemma main_with_key environ argv st key :
  getenv environ "EXA_API_KEY" = Some key → key ≠ "" →
  main environ argv st = after_gate environ argv st.
Proof.
  intros Hkey Hne%String.eqb_neq. rewrite main_eq, M_bind_eq, Hkey.
  cbn [is_set]. by rewrite Hne.
Qed.

Lemma after_gate_constructed environ argv st :
  (∀ c w, ∃ w', construct c w = (w', Ok ())) →
  ∃ st1,
    log st1 = log st ++ (EConstruct <$> init_components (getenv environ "EXA_API_KEY")) ∧
    stdin st1 = stdin st ∧
    after_gate environ argv st
    = if 1 <? length argv then guarded_run (join " " (tail argv)) st1
      else (input topic_prompt ≫= fun user_query => guarded_run user_query) st1.
Proof.
  intros Hc. unfold after_gate. rewrite M_bind_eq.
  destruct (init_ok environ (getenv environ "EXA_API_KEY") st Hc) as (st1 & -> & Hlog & Hin).
  exists st1. split; [|split; [done|]].
  - rewrite Hlog. by destruct (is_set _).
  - by destruct (1 <? length argv).
Qed.

Lemma searches_constructions (cs : list component) : searches (EConstruct <$> cs) = [].
Proof. by induction cs. Qed.

Lemma prompts_constructions (cs : list component) : prompts (EConstruct <$> cs) = [].
Proof. by induction cs. Qed.

Lemma constructions_constructions (cs : list component) :
  constructions (EConstruct <$> cs) = cs.
Proof. induction cs as [|c cs IH]; [done|]. simpl. by rewrite <- IH at 2. Qed.

(** X16. With a non-empty search credential in the environment there is
    no gate: nothing is read from standard input before the search tool is
    constructed with that key, which is the first request of the process,
    and the process never ends in [sys.exit]. *)
Theorem credential_skips_the_gate environ argv st key :
  getenv environ "EXA_API_KEY" = Some key →
  key ≠ "" →
  (∀ code, (main environ argv st).1 ≠ Exited code) ∧
  ∃ l, log (main environ argv st).2 = log st ++ EConstruct (SearchTool (Some key)) :: l.
Proof.
  intros Hkey Hne. rewrite (main_with_key environ argv st key Hkey Hne).
  split; [intros code; apply after_gate_no_exit|].
  rewrite <- Hkey. apply after_gate_first_construction.
Qed.

(** X17. Once the agents are constructed and the topic is given on the
    command line, nothing the search tool, the agents or the formatting
    raise reaches the top: the process ends normally, with status 0.  The
    topic of the two searches is the command-line arguments after the
    program name, joined by single spaces, and the constructions are the
    tool and the four agents. *)
Theorem failures_end_with_status_0 environ argv st key :
  getenv environ "EXA_API_KEY" = Some key →
  key ≠ "" →
  (∀ c w, ∃ w', construct c w = (w', Ok ())) →
  1 < length argv →
  (main environ argv st).1 = Ret () ∧
  exit_status (main environ argv st).1 = 0%Z ∧
  searches (log (main environ argv st).2)
  = searches (log st)
    ++ [primary_search_input (join " " (tail argv));
        secondary_search_input (join " " (tail argv))] ∧
  constructions (log (main environ argv st).2)
  = constructions (log st)
    ++ [SearchTool (Some key); Agent Researcher; Agent InsightsExpert;
        Agent Writer; Agent Editor].
Proof.
  intros Hkey Hne Hc Hargv. rewrite (main_with_key environ argv st key Hkey Hne).
  destruct (after_gate_constructed environ argv st Hc) as (st1 & Hlog & _ & ->).
  apply Nat.ltb_lt in Hargv. rewrite Hargv, Hkey in *.
  destruct (guarded_run_returns (join " " (tail argv)) st1) as (extra & Hret & _).
  destruct (guarded_run_extends (join " " (tail argv)) st1) as (l & Hl & Hcons & Hs).
  rewrite Hret, Hl, Hlog. split; [done|]. split; [done|].
  unfold searches, constructions in *. rewrite !omap_app, Hs, Hcons.
  fold (searches (EConstruct <$> init_components (Some key))).
  fold (constructions (EConstruct <$> init_components (Some key))).
  rewrite searches_constructions, constructions_constructions.
  by rewrite !app_nil_r.
Qed.

(** X18. Without arguments on the command line the topic is the line
    typed at the topic prompt.  That prompt is outside the guarded part:
    when standard input is at its end there, the EOFError is not caught,
    the process ends with status 1, and no search is made. *)
Theorem topic_from_standard_input environ argv st key :
  getenv environ "EXA_API_KEY" = Some key →
  key ≠ "" →
  (∀ c w, ∃ w', construct c w = (w', Ok ())) →
  length argv ≤ 1 →
  (∀ line rest, stdin st = line :: rest →
     (main environ argv st).1 = Ret () ∧
     searches (log (main environ argv st).2)
     = searches (log st) ++ [primary_search_input line; secondary_search_input line]) ∧
  (stdin st = [] →
     (main environ argv st).1 = Raised (Exn "EOFError" "EOF when reading a line") ∧
     exit_status (main environ argv st).1 = 1%Z ∧
     searches (log (main environ argv st).2) = searches (log st)).
Proof.
  intros Hkey Hne Hc Hargv. rewrite (main_with_key environ argv st key Hkey Hne).
  destruct (after_gate_constructed environ argv st Hc) as (st1 & Hlog & Hin & ->).
  assert (Hno : (1 <? length argv) = false) by (apply Nat.ltb_ge; lia).
  rewrite Hno, M_bind_eq. unfold input. rewrite Hin. split.
  - intros line rest ->.
    match goal with
    | |- (guarded_run ?q ?s).1 = _ ∧ _ =>
        destruct (guarded_run_returns q s) as (extra & Hret & _);
        destruct (guarded_run_extends q s) as (l & Hl & _ & Hs)
    end.
    rewrite Hret, Hl. cbn [log]. rewrite Hlog. split; [done|].
    unfold searches in *. rewrite !omap_app, Hs.
    fold (searches (EConstruct <$> init_components (getenv environ "EXA_API_KEY"))).
    rewrite searches_constructions. simpl. by rewrite !app_nil_r.
  - intros ->. cbn [fst snd log]. split; [done|]. split; [done|].
    rewrite Hlog. unfold searches. rewrite !omap_app.
    fold (searches (EConstruct <$> init_components (getenv environ "EXA_API_KEY"))).
    rewrite searches_constructions. simpl. by rewrite !app_nil_r.
Qed.

(** X19. When standard input is at its end at the gate, the EOFError of
    [input] ends the process with status 1 before anything is constructed. *)
Theorem end_of_input_at_the_gate environ argv w :
  is_set (getenv environ "EXA_API_KEY") = false →
  let out := main environ argv (initial w []) in
  out.1 = Raised (Exn "EOFError" "EOF when reading a line") ∧
  exit_status out.1 = 1%Z ∧
  log out.2 = [EInput "Do you want to proceed without web search? (y/n): "].
Proof.
  intros Hset out. subst out. rewrite main_eq, M_bind_eq, Hset. cbn [negb].
  rewrite M_bind_eq. by cbn [input initial stdin log world app tail].
Qed.

(** X20. An exception of a constructor is not caught: the process ends
    with it, with status 1, right after the constructions made so far; the
    topic is never asked for and no search is made. *)
Theorem constructor_failure_ends_the_process environ argv st key e :
  getenv environ "EXA_API_KEY" = Some key →
  key ≠ "" →
  (NewsletterAgents_init environ (Some key) st).1 = Raised e →
  (main environ argv st).1 = Raised e ∧
  exit_status (main environ argv st).1 = 1%Z ∧
  (main environ argv st).2 = (NewsletterAgents_init environ (Some key) st).2 ∧
  prompts (log (main environ argv st).2) = prompts (log st) ∧
  searches (log (main environ argv st).2) = searches (log st).
Proof.
  intros Hkey Hne Hinit. rewrite (main_with_key environ argv st key Hkey Hne).
  unfold after_gate. rewrite M_bind_eq, Hkey.
  destruct (init_shape environ (Some key) st _ eq_refl) as (n & _ & Hlog & _).
  destruct (NewsletterAgents_init environ (Some key) st) as [o st1].
  cbn [fst snd] in *. subst o. cbn [fst snd]. repeat (split; [done|]).
  rewrite Hlog. unfold prompts, searches. rewrite !omap_app.
  match goal with
  | |- context [EConstruct <$> ?cs] =>
      fold (prompts (EConstruct <$> cs)); fold (searches (EConstruct <$> cs))
  end.
  rewrite prompts_constructions, searches_constructions.
  by rewrite !app_nil_r.
Qed.

(** *** Texts that cannot be rendered *)

(** X21. The text of a stage is rendered when the prompt of the next
    stage is built.  When that rendering raises, as it does for an answer
    holding an integer of more than 4300 digits, the run ends with the
    exception and the next agent is never called.  This holds for the
    research text, the insights text and the draft. *)
Theorem unrenderable_text_stops_the_run topic st digest e :
  let first := tool_run (primary_search_input topic) (world st) in
  let second := tool_run (secondary_search_input topic) first.1 in
  build_search_summary (search_answer first.2) (search_answer second.2) = Ok digest →
  (∀ w1 r1,
     agent_run Researcher "" [user_turn (research_message topic digest)] second.1
       = (w1, Ok r1) →
     count_tool_calls r1 = Ok () →
     py_str (extract_content r1) = Raise e →
     (run_pipeline topic st).1 = Raised e ∧
     agent_calls (log (run_pipeline topic st).2)
     = agent_calls (log st) ++ [Researcher]) ∧
  (∀ w1 r1 t1 w2 r2,
     agent_run Researcher "" [user_turn (research_message topic digest)] second.1
       = (w1, Ok r1) →
     count_tool_calls r1 = Ok () →
     py_str (extract_content r1) = Ok t1 →
     agent_run InsightsExpert "" [user_turn (insights_message topic t1 digest)] w1
       = (w2, Ok r2) →
     count_tool_calls r2 = Ok () →
     py_str (extract_content r2) = Raise e →
     (run_pipeline topic st).1 = Raised e ∧
     agent_calls (log (run_pipeline topic st).2)
     = agent_calls (log st) ++ [Researcher; InsightsExpert]) ∧
  (∀ w1 r1 t1 w2 r2 t2 w3 r3,
     agent_run Researcher "" [user_turn (research_message topic digest)] second.1
       = (w1, Ok r1) →
     count_tool_calls r1 = Ok () →
     py_str (extract_content r1) = Ok t1 →
     agent_run InsightsExpert "" [user_turn (insights_message topic t1 digest)] w1
       = (w2, Ok r2) →
     count_tool_calls r2 = Ok () →
     py_str (extract_content r2) = Ok t2 →
     agent_run Writer "" [user_turn (writing_message topic t2)] w2 = (w3, Ok r3) →
     py_str (extract_content r3) = Raise e →
     (run_pipeline topic st).1 = Raised e ∧
     agent_calls (log (run_pipeline topic st).2)
     = agent_calls (log st) ++ [Researcher; InsightsExpert; Writer]) ∧
  (∀ r z,
     extract_content r = PInt z → oversized z = true →
     py_str (extract_content r)
     = Raise (Exn "ValueError"
                  "Exceeds the limit (4300 digits) for integer string conversion; use sys.set_int_max_str_digits() to increase the limit")).
Proof.
  intros first second Hd.
  rewrite run_pipeline_eq. fold first second.
  split; [|split; [|split]].
  - intros w1 r1 H1 Hc1 Ht1. step_digest. rewrite Hd. cbn [lift].
    step_agent_with H1. step_count_with Hc1. step_render_with Ht1.
    split; [done|]. cbn [snd].
    by rewrite !(log_record (EAgentRun _ _ _)), agent_calls_after_searches.
  - intros w1 r1 t1 w2 r2 H1 Hc1 Ht1 H2 Hc2 Ht2. step_digest. rewrite Hd. cbn [lift].
    step_agent_with H1. step_count_with Hc1. step_render_with Ht1.
    step_agent_with H2. step_count_with Hc2. step_render_with Ht2.
    split; [done|]. cbn [snd].
    by rewrite !(log_record (EAgentRun _ _ _)), <- !app_assoc, agent_calls_after_searches.
  - intros w1 r1 t1 w2 r2 t2 w3 r3 H1 Hc1 Ht1 H2 Hc2 Ht2 H3 Ht3.
    step_digest. rewrite Hd. cbn [lift].
    step_agent_with H1. step_count_with Hc1. step_render_with Ht1.
    step_agent_with H2. step_count_with Hc2. step_render_with Ht2.
    step_agent_with H3. step_render_with Ht3.
    split; [done|]. cbn [snd].
    by rewrite !(log_record (EAgentRun _ _ _)), <- !app_assoc, agent_calls_after_searches.
  - intros r z -> Hz. cbn [py_str]. by rewrite Hz.
Qed.

End Properties.

(** ** The claims on the sample worlds *)

(** C1, counterexample.  With four results of 400 preview characters per
    search, the insights prompt holds neither the primary section in full
    nor the digest the specification words (primary section in full,
    secondary section cut to 1000 characters). *)
Lemma stage2_cuts_primary_section :
  ∃ first second prompt,
    render_section (surroundings := long_world) ""
      (search_answer (surroundings := long_world) (long_search (primary_search_input "AI"))) "" = Ok first ∧
    render_section (surroundings := long_world) nl
      (search_answer (surroundings := long_world) (long_search (secondary_search_input "AI"))) "" = Ok second ∧
    histories_of InsightsExpert (log long_run.2) = [[user_turn prompt]] ∧
    str_contains first prompt = false ∧
    str_contains (stage2_digest_as_worded first second) prompt = false.
Proof.
  do 3 eexists.
  split; [vm_compute; reflexivity|].
  split; [vm_compute; reflexivity|].
  split; [vm_compute; reflexivity|].
  split; vm_compute; reflexivity.
Qed.

Lemma stage2_digest_is_cut_whole_witness :
  long_insights_history ∈ histories_of InsightsExpert (log long_run.2) ∧
  ∃ digest,
    histories_of Researcher (log long_run.2)
      = [[user_turn (research_message "AI" digest)]] ∧
    String.length (str_take 1000 digest) = Nat.min 1000 (String.length digest) ∧
    startswith (str_take 1000 digest) digest = true.
Proof.
  assert (Hin : long_insights_history ∈ histories_of InsightsExpert (log long_run.2))
    by (vm_compute; left).
  split; [exact Hin|].
  destruct (stage2_digest_is_cut_whole (surroundings := long_world) "AI" () []
              long_insights_history Hin)
    as (digest & first & second & research & research_text
        & _ & _ & _ & Hr & _ & _ & Hlen & Hpre).
  exists digest. split; [exact Hr|]. split; [exact Hlen | exact Hpre].
Defined.

(** C2, counterexample.  A record without title, url and date renders
    with the text None in the three places, not with nothing there. *)
Lemma absent_field_renders_None :
  render_result (surroundings := sample_world) 0 (PDict ∅) ""
  = Ok ("[Result 1]" +:+ nl +:+ "Title: None" +:+ nl +:+ "URL: None" +:+ nl
        +:+ "Published: None" +:+ nl) ∧
  render_result (surroundings := sample_world) 0 (PDict ∅) ""
  ≠ Ok ("[Result 1]" +:+ nl
        +:+ "Title: " +:+ field_as_worded (surroundings := sample_world) None +:+ nl
        +:+ "URL: " +:+ field_as_worded (surroundings := sample_world) None +:+ nl
        +:+ "Published: " +:+ field_as_worded (surroundings := sample_world) None +:+ nl).
Proof. split; [vm_compute; reflexivity | vm_compute; discriminate]. Qed.

Lemma formatting_total_on_records_witness :
  is_record (PDict ∅) = true ∧
  fields_render (surroundings := sample_world) ∅ = true ∧
  Forall (fun r => record_renders (surroundings := sample_world) r = true)
    [hit "A" "alpha"; PDict ∅] ∧
  render_result (surroundings := sample_world) 0 (PDict ∅) ""
  = Ok ("" +:+ record_head (surroundings := sample_world) 0 ∅ +:+ "") ∧
  record_head (surroundings := sample_world) 0 ∅
  = "[Result 1]" +:+ nl +:+ "Title: None" +:+ nl +:+ "URL: None" +:+ nl
    +:+ "Published: None" +:+ nl ∧
  is_ok (render_loop (surroundings := sample_world) 0 [hit "A" "alpha"; PDict ∅] "") = true ∧
  is_ok (build_search_summary (surroundings := sample_world)
           (search_response (PStr "q") [hit "A" "alpha"; PDict ∅])
           (search_response PNone [hit "A" "alpha"; PDict ∅])) = true ∧
  renders (surroundings := sample_world) (PInt 2025) = true ∧
  oversized huge = true ∧
  render_result (surroundings := sample_world) 0 (PDict {[ "title" := PInt huge ]}) ""
  = Raise (Exn "ValueError" (exn_msg digits_error)).
Proof.
  assert (Hrecord : is_record (PDict ∅) = true) by reflexivity.
  assert (Hfields : fields_render (surroundings := sample_world) ∅ = true) by reflexivity.
  assert (Hrecords : Forall (fun r => record_renders (surroundings := sample_world) r = true)
                       [hit "A" "alpha"; PDict ∅])
    by (repeat constructor).
  assert (Hhuge : oversized huge = true) by (vm_compute; reflexivity).
  assert (Htitle : ({[ "title" := PInt huge ]} : gmap string pyval) !! "title"
                   = Some (PInt huge))
    by (apply lookup_singleton_eq).
  destruct (formatting_total_on_records (surroundings := sample_world))
    as (Hone & Hhead & Hloop & Hboth & Hplain & Hover).
  split; [exact Hrecord|]. split; [exact Hfields|]. split; [exact Hrecords|].
  split; [exact (Hone 0 ∅ "" Hrecord Hfields)|].
  split; [exact (proj2 (Hhead 0 ∅ eq_refl eq_refl eq_refl))|].
  split; [exact (Hloop _ Hrecords 0 "")|].
  split; [exact (Hboth (PStr "q") _ PNone _ eq_refl eq_refl Hrecords Hrecords)|].
  split; [apply Hplain; vm_compute; reflexivity|].
  split; [exact Hhuge|].
  exact (Hover 0 _ huge "" Htitle Hhuge).
Defined.

(** C3, on the sample run. *)
Lemma extraction_follows_precedence_witness :
  extract_content
    {| attrs := <["response_message" := PStr "m"]> {[ "content" := PStr "c" ]};
       as_str := "<o>" |} = PStr "m" ∧
  extract_content
    {| attrs := <["content" := PStr "c"]> {[ "response_content" := PStr "r" ]};
       as_str := "<o>" |} = PStr "c" ∧
  extract_content {| attrs := {[ "response_content" := PStr "r" ]}; as_str := "<o>" |}
    = PStr "r" ∧
  extract_content {| attrs := {[ "text" := PStr "t" ]}; as_str := "<o>" |} = PStr "<o>" ∧
  sample_run
  = (Ret (pipeline_result (PStr "text") (PStr "text") (PStr "text") (PStr "text")),
     sample_run.2) ∧
  ∃ r1 r2 r3 r4,
    pipeline_result (PStr "text") (PStr "text") (PStr "text") (PStr "text")
    = pipeline_result (probe_fields field_precedence r1)
                      (probe_fields field_precedence r2)
                      (probe_fields field_precedence r3)
                      (probe_fields field_precedence r4).
Proof.
  assert (Hrun : sample_run
                 = (Ret (pipeline_result (PStr "text") (PStr "text")
                                         (PStr "text") (PStr "text")),
                    sample_run.2))
    by (vm_compute; reflexivity).
  destruct (extraction_follows_precedence (surroundings := sample_world))
    as (_ & Hfirst & Hsecond & Hthird & Hnone & _ & Hall).
  split; [apply Hfirst; vm_compute; reflexivity|].
  split; [apply Hsecond; vm_compute; reflexivity|].
  split; [apply Hthird; vm_compute; reflexivity|].
  split; [apply Hnone; vm_compute; reflexivity|].
  split; [exact Hrun|].
  exact (Hall "AI" (initial () []) _ _ Hrun).
Defined.

(** C4, with the network down for both searches. *)
Lemma failed_search_is_omitted_witness :
  search_failed (broken_search (primary_search_input "AI")) = true ∧
  search_failed (broken_search (secondary_search_input "AI")) = true ∧
  render_section (surroundings := offline_world) nl
    (PDict {[ "success" := PBool false ]}) "digest so far" = Ok "digest so far" ∧
  build_search_summary (surroundings := offline_world)
    (search_answer (surroundings := offline_world) (broken_search (primary_search_input "AI")))
    (search_answer (surroundings := offline_world) (broken_search (secondary_search_input "AI")))
  = Ok ("SEARCH RESULTS:" +:+ nl +:+ nl) ∧
  ∃ res st',
    offline_run = (Ret res, st') ∧
    agent_calls (log st') = [Researcher; InsightsExpert; Writer; Editor].
Proof.
  destruct (failed_search_is_omitted (surroundings := offline_world) "AI" (initial () []))
    as (Hsection & Hfirst & Hsecond & Hboth & Hrun).
  split; [reflexivity|]. split; [reflexivity|].
  split; [apply Hsection; vm_compute; reflexivity|].
  split; [exact (Hboth eq_refl eq_refl)|].
  apply Hrun.
  - intros r m h w. exists w, (reply (PStr "text")).
    split; [reflexivity|]. split; reflexivity.
  - rewrite (Hfirst eq_refl). vm_compute. reflexivity.
Defined.

(** C5, on the sample run. *)
Lemma pipeline_result_shape_witness :
  build_search_summary (surroundings := sample_world)
    (search_answer (surroundings := sample_world) (short_search (primary_search_input "AI")))
    (search_answer (surroundings := sample_world) (short_search (secondary_search_input "AI")))
  = Ok sample_digest ∧
  probe_fields field_precedence (reply (PStr "text")) = PStr "text" ∧
  ∃ res st',
    sample_run = (Ret res, st') ∧
    dom res = {[ "research"; "insights"; "draft"; "final" ]} ∧
    res !! "research" = Some (PStr "text") ∧
    res !! "final" = Some (PStr "text") ∧
    (∀ key v, res !! key = Some v → is_text v = true ∧ v ≠ PNone).
Proof.
  assert (Hd : build_search_summary (surroundings := sample_world)
                 (search_answer (surroundings := sample_world)
                    (short_search (primary_search_input "AI")))
                 (search_answer (surroundings := sample_world)
                    (short_search (secondary_search_input "AI")))
               = Ok sample_digest)
    by (vm_compute; reflexivity).
  assert (Ht : probe_fields field_precedence (reply (PStr "text")) = PStr "text")
    by (vm_compute; reflexivity).
  split; [exact Hd|]. split; [exact Ht|].
  destruct (pipeline_result_shape (surroundings := sample_world) "AI" (initial () [])
              sample_digest (reply (PStr "text")) (reply (PStr "text"))
              (reply (PStr "text")) (reply (PStr "text"))
              "text" "text" "text" "text" () () () ()
              Hd eq_refl eq_refl Ht eq_refl eq_refl Ht eq_refl Ht eq_refl Ht)
    as (res & st' & Hrun & Hdom & Hresearch & _ & _ & Hfinal & Htext).
  exists res, st'. split; [exact Hrun|]. split; [exact Hdom|].
  split; [exact Hresearch|]. split; [exact Hfinal | exact Htext].
Defined.

(** C6, on a record with a short preview. *)
Lemma preview_capped_at_300_witness :
  hit_fields "A" "alpha" !! "content_preview" = Some (PStr "alpha") ∧
  fields_render (surroundings := sample_world) (hit_fields "A" "alpha") = true ∧
  ∃ head,
    render_result (surroundings := sample_world) 0 (hit "A" "alpha") ""
    = Ok (head +:+ preview_as_rendered "alpha") ∧
    String.length (preview_as_rendered "alpha") ≤ 300 + 9 + 5.
Proof.
  assert (Hp : hit_fields "A" "alpha" !! "content_preview" = Some (PStr "alpha"))
    by (vm_compute; reflexivity).
  assert (Hf : fields_render (surroundings := sample_world) (hit_fields "A" "alpha") = true)
    by (vm_compute; reflexivity).
  split; [exact Hp|]. split; [exact Hf|].
  destruct (preview_capped_at_300 (surroundings := sample_world) 0
              (hit_fields "A" "alpha") "alpha" "" Hp)
    as (_ & Hhead & _ & _ & _ & Hlen).
  destruct (Hhead Hf) as (head & _ & Hrender).
  exists head. split; [exact Hrender | exact Hlen].
Defined.

(** C8, with an empty environment and the answer n. *)
Lemma gate_exits_before_construction_witness :
  getenv ∅ "EXA_API_KEY" = None ∧
  lower "n" ≠ "y" ∧
  (main (surroundings := sample_world) ∅ ["main.py"] (initial () ["n"])).1 = Exited 1 ∧
  constructions
    (log (main (surroundings := sample_world) ∅ ["main.py"] (initial () ["n"])).2) = [].
Proof.
  assert (He : getenv ∅ "EXA_API_KEY" = None) by reflexivity.
  assert (Hn : lower "n" ≠ "y") by (vm_compute; discriminate).
  split; [exact He|]. split; [exact Hn|].
  destruct (gate_exits_before_construction (surroundings := sample_world)
              ∅ ["main.py"] () "n" [] He Hn) as (Hexit & _ & Hnone & _).
  split; [exact Hexit | exact Hnone].
Defined.


(** C10, on the sample run. *)
Lemma research_digest_has_header_witness :
  sample_research_history ∈ histories_of Researcher (log sample_run.2) ∧
  (∃ digest,
     sample_research_history = [user_turn (research_message "AI" digest)] ∧
     startswith ("SEARCH RESULTS:" +:+ nl +:+ nl) digest = true) ∧
  histories_of Researcher (log offline_run.2)
  = [[user_turn (research_message "AI" ("SEARCH RESULTS:" +:+ nl +:+ nl))]].
Proof.
  assert (Hin : sample_research_history ∈ histories_of Researcher (log sample_run.2))
    by (vm_compute; left).
  split; [exact Hin|]. split.
  - destruct (research_digest_has_header (surroundings := sample_world) "AI" () [])
      as (Hhead & _).
    destruct (Hhead _ Hin) as (digest & Hh & Hstart & _).
    exists digest. split; [exact Hh | exact Hstart].
  - destruct (research_digest_has_header (surroundings := offline_world) "AI" () [])
      as (_ & Hfailed).
    exact (Hfailed eq_refl eq_refl).
Defined.

(** ** The further properties on the sample worlds *)

Lemma stages_run_in_order_witness :
  sample_run.1
  = Ret (pipeline_result (PStr "text") (PStr "text") (PStr "text") (PStr "text")) ∧
  ∃ l, log sample_run.2
       = [ESearch (primary_search_input "AI"); ESearch (secondary_search_input "AI")] ++ l ∧
       agent_calls l = [Researcher; InsightsExpert; Writer; Editor].
Proof.
  assert (Hret : sample_run.1
                 = Ret (pipeline_result (PStr "text") (PStr "text")
                                        (PStr "text") (PStr "text")))
    by (vm_compute; reflexivity).
  split; [exact Hret|].
  destruct (stages_run_in_order (surroundings := sample_world) "AI" (initial () []))
    as (n & l & _ & Hlog & _ & Hcalls & _ & Hall).
  rewrite (Hall _ Hret) in Hcalls.
  exists l. split; [exact Hlog | exact Hcalls].
Defined.

Lemma each_stage_gets_one_user_turn_witness :
  EAgentRun Writer "" [user_turn (writing_message "AI" "text")] ∈ log sample_run.2 ∧
  ∃ text,
    [user_turn (writing_message "AI" "text")] = [{| role := "user"; content := text |}].
Proof.
  assert (Hin : EAgentRun Writer "" [user_turn (writing_message "AI" "text")]
                ∈ log sample_run.2)
    by (vm_compute; repeat constructor).
  split; [exact Hin|].
  exact (proj2 (each_stage_gets_one_user_turn (surroundings := sample_world)
                  "AI" () [] _ _ _ Hin)).
Defined.

Lemma texts_are_passed_down_witness :
  sample_run
  = (Ret (pipeline_result (PStr "text") (PStr "text") (PStr "text") (PStr "text")),
     sample_run.2) ∧
  ∃ digest research insights draft research_text insights_text draft_text,
    sample_run.1 = Ret (pipeline_result research insights draft (PStr "text")) ∧
    py_str (surroundings := sample_world) research = Ok research_text ∧
    py_str (surroundings := sample_world) insights = Ok insights_text ∧
    py_str (surroundings := sample_world) draft = Ok draft_text ∧
    histories_of Writer (log sample_run.2)
    = [[user_turn (writing_message "AI" insights_text)]] ∧
    histories_of Editor (log sample_run.2)
    = [[user_turn (editing_message "AI" draft_text)]] ∧
    histories_of InsightsExpert (log sample_run.2)
    = [[user_turn (insights_message "AI" research_text digest)]].
Proof.
  assert (Hrun : sample_run
                 = (Ret (pipeline_result (PStr "text") (PStr "text")
                                         (PStr "text") (PStr "text")),
                    sample_run.2))
    by (vm_compute; reflexivity).
  split; [exact Hrun|].
  destruct (texts_are_passed_down (surroundings := sample_world)
              "AI" (initial () []) _ _ Hrun)
    as (digest & research & insights & draft & final & research_text & insights_text
        & draft_text & Hres & Hr & Hi & Hd & Hlog).
  assert (Hfinal : final = PStr "text").
  { assert (Hl : pipeline_result (PStr "text") (PStr "text") (PStr "text") (PStr "text")
                 !! "final"
                 = pipeline_result research insights draft final !! "final")
      by (by rewrite Hres).
    vm_compute in Hl. by injection Hl as <-. }
  exists digest, research, insights, draft, research_text, insights_text, draft_text.
  split; [by rewrite Hrun, Hres, Hfinal|].
  split; [exact Hr|]. split; [exact Hi|]. split; [exact Hd|].
  rewrite Hlog. by repeat split.
Defined.

Lemma agent_failure_propagates_witness :
  build_search_summary (surroundings := writer_down_world)
    (search_answer (surroundings := writer_down_world) (short_search (primary_search_input "AI")))
    (search_answer (surroundings := writer_down_world) (short_search (secondary_search_input "AI")))
  = Ok sample_digest ∧
  (run_pipeline (surroundings := writer_down_world) "AI" (initial () [])).1
  = Raised (Exn "RateLimitError" "quota exceeded") ∧
  agent_calls (log (run_pipeline (surroundings := writer_down_world)
                      "AI" (initial () [])).2)
  = [Researcher; InsightsExpert; Writer].
Proof.
  assert (Hd : build_search_summary (surroundings := writer_down_world)
                 (search_answer (surroundings := writer_down_world) (short_search (primary_search_input "AI")))
                 (search_answer (surroundings := writer_down_world) (short_search (secondary_search_input "AI")))
               = Ok sample_digest)
    by (vm_compute; reflexivity).
  split; [exact Hd|].
  destruct (agent_failure_propagates (surroundings := writer_down_world)
              "AI" (initial () []) sample_digest
              (Exn "RateLimitError" "quota exceeded") Hd)
    as (_ & _ & Hwriter & _).
  exact (Hwriter () (reply (PStr "text")) "text" () (reply (PStr "text")) "text" ()
           eq_refl eq_refl eq_refl eq_refl eq_refl eq_refl eq_refl).
Defined.

Lemma tool_call_count_can_abort_witness :
  count_tool_calls
    {| attrs := <["tool_calls" := PBool true]> {[ "response_message" := PStr "text" ]};
       as_str := "<agent output>" |}
  = Raise (TypeError "object of type 'bool' has no len()") ∧
  count_tool_calls (reply (PStr "text")) = Ok () ∧
  (run_pipeline (surroundings := counting_world) "AI" (initial () [])).1
  = Raised (TypeError "object of type 'bool' has no len()") ∧
  agent_calls (log (run_pipeline (surroundings := counting_world)
                      "AI" (initial () [])).2)
  = [Researcher].
Proof.
  destruct (tool_call_count_can_abort (surroundings := counting_world)
              "AI" (initial () []) sample_digest)
    as (Habsent & _ & _ & Htrue & _ & Hrun).
  assert (Hc : count_tool_calls
                 {| attrs := <["tool_calls" := PBool true]>
                               {[ "response_message" := PStr "text" ]};
                    as_str := "<agent output>" |}
               = Raise (TypeError "object of type 'bool' has no len()"))
    by (apply Htrue; vm_compute; reflexivity).
  split; [exact Hc|].
  split; [apply Habsent; vm_compute; reflexivity|].
  exact (Hrun ()
           {| attrs := <["tool_calls" := PBool true]>
                         {[ "response_message" := PStr "text" ]};
              as_str := "<agent output>" |}
           (TypeError "object of type 'bool' has no len()")
           ltac:(vm_compute; reflexivity) eq_refl Hc).
Defined.

Lemma unrenderable_results_stop_the_run_witness :
  build_search_summary (surroundings := hollow_world)
    (search_answer (surroundings := hollow_world) (hollow_search (primary_search_input "AI")))
    (search_answer (surroundings := hollow_world) (hollow_search (secondary_search_input "AI")))
  = Raise (TypeError "object of type 'NoneType' has no len()") ∧
  (run_pipeline (surroundings := hollow_world) "AI" (initial () [])).1
  = Raised (TypeError "object of type 'NoneType' has no len()") ∧
  agent_calls (log (run_pipeline (surroundings := hollow_world)
                      "AI" (initial () [])).2) = [].
Proof.
  assert (Hd : build_search_summary (surroundings := hollow_world)
                 (search_answer (surroundings := hollow_world) (hollow_search (primary_search_input "AI")))
                 (search_answer (surroundings := hollow_world) (hollow_search (secondary_search_input "AI")))
               = Raise (TypeError "object of type 'NoneType' has no len()"))
    by (vm_compute; reflexivity).
  split; [exact Hd|].
  destruct (unrenderable_results_stop_the_run (surroundings := hollow_world)
              "AI" (initial () []) _ Hd) as (Hout & Hlog).
  split; [exact Hout|]. by rewrite Hlog.
Defined.

Lemma short_digest_reaches_stage2_whole_witness :
  String.length sample_digest ≤ 1000 ∧
  hd [] (histories_of InsightsExpert (log sample_run.2))
    ∈ histories_of InsightsExpert (log sample_run.2) ∧
  ∃ research research_text,
    py_str (surroundings := sample_world) research = Ok research_text ∧
    hd [] (histories_of InsightsExpert (log sample_run.2))
    = [user_turn (insights_message "AI" research_text sample_digest)].
Proof.
  assert (Hlen : String.length sample_digest ≤ 1000)
    by (apply Nat.leb_le; vm_compute; reflexivity).
  assert (Hin : hd [] (histories_of InsightsExpert (log sample_run.2))
                ∈ histories_of InsightsExpert (log sample_run.2))
    by (vm_compute; left).
  assert (Hd : build_search_summary (surroundings := sample_world)
                 (search_answer (surroundings := sample_world) (short_search (primary_search_input "AI")))
                 (search_answer (surroundings := sample_world) (short_search (secondary_search_input "AI")))
               = Ok sample_digest)
    by (vm_compute; reflexivity).
  split; [exact Hlen|]. split; [exact Hin|].
  destruct (short_digest_reaches_stage2_whole (surroundings := sample_world)
              "AI" () [] sample_digest _ Hd Hlen Hin) as (research & text & Ht & Hh).
  exists research, text. split; [exact Ht|]. rewrite Hh. unfold insights_message.
  by rewrite (str_take_all 1000 sample_digest Hlen).
Defined.

Lemma digest_of_two_responses_witness :
  Forall (fun d => record_renders (surroundings := sample_world) (PDict d) = true)
    [hit_fields "A" "alpha"; ∅] ∧
  build_search_summary (surroundings := sample_world)
    (search_response (PStr "q") (PDict <$> [hit_fields "A" "alpha"; ∅]))
    (search_response (PStr "r") (PDict <$> []))
  = Ok (("SEARCH RESULTS:" +:+ nl +:+ nl)
        +:+ ("Search for 'q' found 2 results:" +:+ nl +:+ nl)
        +:+ blocks (surroundings := sample_world) 0 [hit_fields "A" "alpha"; ∅]
        +:+ (nl +:+ "Search for 'r' found 0 results:" +:+ nl +:+ nl)).
Proof.
  assert (H1 : Forall (fun d => record_renders (surroundings := sample_world) (PDict d)
                               = true) [hit_fields "A" "alpha"; ∅])
    by (repeat constructor).
  split; [exact H1|].
  destruct (digest_of_two_responses (surroundings := sample_world)
              (PStr "q") "q" [hit_fields "A" "alpha"; ∅] (PStr "r") "r" []
              eq_refl eq_refl H1 (Forall_nil_2 _))
    as (Hdigest & _).
  rewrite Hdigest. vm_compute. reflexivity.
Defined.

Lemma odd_results_entries_witness :
  render_section (surroundings := sample_world) ""
    (PDict (<["success" := PBool true]> ∅)) "x"
  = Ok ("x" +:+ "Search for 'None' found 0 results:" +:+ nl +:+ nl) ∧
  render_section (surroundings := sample_world) ""
    (PDict (<["success" := PBool true]> (<["results" := PNone]> ∅))) "x"
  = Raise (TypeError "object of type 'NoneType' has no len()") ∧
  render_section (surroundings := sample_world) ""
    (PDict (<["success" := PBool true]> (<["results" := PList [PStr "hit"]]> ∅))) "x"
  = Raise (AttributeError (PStr "hit") "get").
Proof.
  split; [|split].
  - assert (Hs : truthy (default PNone
                   ((<["success" := PBool true]> ∅ : gmap string pyval) !! "success"))
                 = true) by (vm_compute; reflexivity).
    assert (Hr : (<["success" := PBool true]> ∅ : gmap string pyval) !! "results" = None)
      by (vm_compute; reflexivity).
    destruct (odd_results_entries (surroundings := sample_world) "" _ "x" Hs
                ltac:(vm_compute; reflexivity))
      as (Hnone & _).
    rewrite (Hnone Hr). vm_compute. reflexivity.
  - assert (Hs : truthy (default PNone
                   ((<["success" := PBool true]> (<["results" := PNone]> ∅)
                     : gmap string pyval) !! "success"))
                 = true) by (vm_compute; reflexivity).
    assert (Hr : (<["success" := PBool true]> (<["results" := PNone]> ∅)
                  : gmap string pyval) !! "results" = Some PNone)
      by (vm_compute; reflexivity).
    destruct (odd_results_entries (surroundings := sample_world) "" _ "x" Hs
                ltac:(vm_compute; reflexivity))
      as (_ & Hnull & _).
    exact (Hnull Hr).
  - assert (Hs : truthy (default PNone
                   ((<["success" := PBool true]>
                       (<["results" := PList [PStr "hit"]]> ∅)
                     : gmap string pyval) !! "success"))
                 = true) by (vm_compute; reflexivity).
    assert (Hr : (<["success" := PBool true]> (<["results" := PList [PStr "hit"]]> ∅)
                  : gmap string pyval) !! "results" = Some (PList [PStr "hit"]))
      by (vm_compute; reflexivity).
    destruct (odd_results_entries (surroundings := sample_world) "" _ "x" Hs
                ltac:(vm_compute; reflexivity))
      as (_ & _ & Hitem).
    apply (Hitem (PStr "hit") [] Hr). discriminate.
Defined.

Lemma preview_line_edge_cases_witness :
  render_result (surroundings := sample_world) 0
    (PDict (<["content_preview" := PStr ""]> ∅)) ""
  = Ok ("" +:+ record_head (surroundings := sample_world) 0
                 (<["content_preview" := PStr ""]> ∅)) ∧
  render_result (surroundings := sample_world) 0
    (PDict (<["content_preview" := PInt 5]> ∅)) ""
  = Raise (TypeError "'int' object is not subscriptable") ∧
  render_result (surroundings := sample_world) 0
    (PDict (<["content_preview" := PBool true]> ∅)) ""
  = Raise (TypeError "'bool' object is not subscriptable").
Proof.
  split; [|split].
  - assert (Hp : truthy (default PNone
                   ((<["content_preview" := PStr ""]> ∅ : gmap string pyval)
                    !! "content_preview")) = false) by (vm_compute; reflexivity).
    assert (Hf : fields_render (surroundings := sample_world)
                   (<["content_preview" := PStr ""]> ∅) = true) by (vm_compute; reflexivity).
    destruct (preview_line_edge_cases (surroundings := sample_world) 0
                (<["content_preview" := PStr ""]> ∅) "" Hf) as (Hfalsy & _).
    exact (Hfalsy Hp).
  - assert (Hp : (<["content_preview" := PInt 5]> ∅ : gmap string pyval)
                 !! "content_preview" = Some (PInt 5)) by (vm_compute; reflexivity).
    assert (Hf : fields_render (surroundings := sample_world)
                   (<["content_preview" := PInt 5]> ∅) = true) by (vm_compute; reflexivity).
    destruct (preview_line_edge_cases (surroundings := sample_world) 0
                (<["content_preview" := PInt 5]> ∅) "" Hf) as (_ & Hint & _).
    apply (Hint 5%Z Hp). discriminate.
  - assert (Hp : (<["content_preview" := PBool true]> ∅ : gmap string pyval)
                 !! "content_preview" = Some (PBool true)) by (vm_compute; reflexivity).
    assert (Hf : fields_render (surroundings := sample_world)
                   (<["content_preview" := PBool true]> ∅) = true) by (vm_compute; reflexivity).
    destruct (preview_line_edge_cases (surroundings := sample_world) 0
                (<["content_preview" := PBool true]> ∅) "" Hf) as (_ & _ & Hbool).
    exact (Hbool Hp).
Defined.

Lemma manual_search_returns_a_dict_witness :
  flagged (search_response (PStr "AI") [hit "A" "alpha"]) = true ∧
  ∃ d,
    (manual_search (surroundings := sample_world) "AI" 30 (initial () [])).1
    = Ret (PDict d) ∧
    (tool_run (Surroundings := sample_world)
       {| search_query := "AI"; days_ago := 30; max_results := 5 |} ()).2
    = Ok (PDict d).
Proof.
  assert (Hflag : flagged (search_response (PStr "AI") [hit "A" "alpha"]) = true)
    by (vm_compute; reflexivity).
  split; [exact Hflag|].
  destruct (manual_search_returns_a_dict (surroundings := sample_world)
              "AI" 30 (initial () []))
    as (d & Hret & _ & Hsame & _).
  exists d. split; [exact Hret|]. apply Hsame.
  assert (Hd : PDict d = search_response (PStr "AI") [hit "A" "alpha"]).
  { assert (Hrun : (manual_search (surroundings := sample_world) "AI" 30
                      (initial () [])).1
                   = Ret (search_response (PStr "AI") [hit "A" "alpha"]))
      by (vm_compute; reflexivity).
    rewrite Hrun in Hret. congruence. }
  rewrite Hd. exact Hflag.
Defined.


Lemma init_constructs_in_order_witness :
  (NewsletterAgents_init (surroundings := sample_world) ∅ None (initial () [])).1
  = Ret () ∧
  log (NewsletterAgents_init (surroundings := sample_world) ∅ None (initial () [])).2
  = [EConstruct (SearchTool None); EConstruct (Agent Researcher);
     EConstruct (Agent InsightsExpert); EConstruct (Agent Writer);
     EConstruct (Agent Editor)].
Proof.
  destruct (init_constructs_in_order (surroundings := sample_world) ∅ None (initial () []))
    as (n & _ & Hlog & _ & _ & Hall & Hret).
  assert (Hok : (NewsletterAgents_init (surroundings := sample_world) ∅ None
                   (initial () [])).1 = Ret ()).
  { apply Hret. intros c w. exists w. reflexivity. }
  split; [exact Hok|].
  rewrite Hlog, (Hall Hok). reflexivity.
Defined.

Lemma gate_accepts_exactly_y_witness :
  is_set (getenv ∅ "EXA_API_KEY") = false ∧
  (main (surroundings := sample_world) ∅ ["main.py"] (initial () ["no"])).1 = Exited 1 ∧
  ∃ l,
    log (main (surroundings := sample_world) ∅ ["main.py"] (initial () ["Y"; "AI"])).2
    = EInput "Do you want to proceed without web search? (y/n): "
      :: EConstruct (SearchTool None) :: l.
Proof.
  assert (Hset : is_set (getenv ∅ "EXA_API_KEY") = false) by reflexivity.
  split; [exact Hset|]. split.
  - destruct (gate_accepts_exactly_y (surroundings := sample_world)
                ∅ ["main.py"] () "no" [] Hset) as (Hexit & _).
    apply Hexit. split; discriminate.
  - destruct (gate_accepts_exactly_y (surroundings := sample_world)
                ∅ ["main.py"] () "Y" ["AI"] Hset) as (_ & Hyes).
    destruct (Hyes (or_intror eq_refl)) as (_ & l & Hlog).
    exists l. exact Hlog.
Defined.

Lemma credential_skips_the_gate_witness :
  getenv keyed_environ "EXA_API_KEY" = Some "k-123" ∧
  ∃ l,
    log (main (surroundings := sample_world) keyed_environ ["main.py"; "AI"]
           (initial () [])).2
    = EConstruct (SearchTool (Some "k-123")) :: l.
Proof.
  assert (Hkey : getenv keyed_environ "EXA_API_KEY" = Some "k-123")
    by (vm_compute; reflexivity).
  split; [exact Hkey|].
  destruct (credential_skips_the_gate (surroundings := sample_world)
              keyed_environ ["main.py"; "AI"] (initial () []) "k-123" Hkey
              ltac:(discriminate)) as (_ & l & Hlog).
  exists l. exact Hlog.
Defined.

Lemma failures_end_with_status_0_witness :
  (run_pipeline (surroundings := writer_down_world) "quantum computing"
     {| world := (); log := EConstruct <$> init_components (Some "k-123"); stdin := [] |}).1
  = Raised (Exn "RateLimitError" "quota exceeded") ∧
  exit_status
    (main (surroundings := writer_down_world) keyed_environ
       ["main.py"; "quantum"; "computing"] (initial () [])).1 = 0%Z ∧
  searches
    (log (main (surroundings := writer_down_world) keyed_environ
            ["main.py"; "quantum"; "computing"] (initial () [])).2)
  = [primary_search_input "quantum computing";
     secondary_search_input "quantum computing"].
Proof.
  split; [vm_compute; reflexivity|].
  assert (Hkey : getenv keyed_environ "EXA_API_KEY" = Some "k-123")
    by (vm_compute; reflexivity).
  destruct (failures_end_with_status_0 (surroundings := writer_down_world)
              keyed_environ ["main.py"; "quantum"; "computing"] (initial () []) "k-123"
              Hkey ltac:(discriminate)
              (fun c w => ex_intro _ w eq_refl) ltac:(simpl; lia))
    as (_ & Hstatus & Hsearches & _).
  split; [exact Hstatus | exact Hsearches].
Defined.

Lemma topic_from_standard_input_witness :
  searches
    (log (main (surroundings := sample_world) keyed_environ ["main.py"]
            (initial () ["AI"])).2)
  = [primary_search_input "AI"; secondary_search_input "AI"] ∧
  exit_status
    (main (surroundings := sample_world) keyed_environ ["main.py"] (initial () [])).1
  = 1%Z.
Proof.
  assert (Hkey : getenv keyed_environ "EXA_API_KEY" = Some "k-123")
    by (vm_compute; reflexivity).
  split.
  - destruct (topic_from_standard_input (surroundings := sample_world)
                keyed_environ ["main.py"] (initial () ["AI"]) "k-123"
                Hkey ltac:(discriminate)
                (fun c w => ex_intro _ w eq_refl) ltac:(simpl; lia))
      as (Hline & _).
    exact (proj2 (Hline "AI" [] eq_refl)).
  - destruct (topic_from_standard_input (surroundings := sample_world)
                keyed_environ ["main.py"] (initial () []) "k-123"
                Hkey ltac:(discriminate)
                (fun c w => ex_intro _ w eq_refl) ltac:(simpl; lia))
      as (_ & Heof).
    exact (proj1 (proj2 (Heof eq_refl))).
Defined.

Lemma end_of_input_at_the_gate_witness :
  is_set (getenv ∅ "EXA_API_KEY") = false ∧
  exit_status (main (surroundings := sample_world) ∅ ["main.py"] (initial () [])).1
  = 1%Z ∧
  constructions
    (log (main (surroundings := sample_world) ∅ ["main.py"] (initial () [])).2) = [].
Proof.
  assert (Hset : is_set (getenv ∅ "EXA_API_KEY") = false) by reflexivity.
  split; [exact Hset|].
  destruct (end_of_input_at_the_gate (surroundings := sample_world)
              ∅ ["main.py"] () Hset) as (_ & Hstatus & Hlog).
  split; [exact Hstatus|]. by rewrite Hlog.
Defined.

Lemma constructor_failure_ends_the_process_witness :
  (NewsletterAgents_init (surroundings := no_writer_world) keyed_environ
     (Some "k-123") (initial () ["AI"])).1
  = Raised (Exn "ValueError" "no API key") ∧
  (main (surroundings := no_writer_world) keyed_environ ["main.py"]
     (initial () ["AI"])).1
  = Raised (Exn "ValueError" "no API key") ∧
  prompts (log (main (surroundings := no_writer_world) keyed_environ ["main.py"]
                  (initial () ["AI"])).2) = [].
Proof.
  assert (Hkey : getenv keyed_environ "EXA_API_KEY" = Some "k-123")
    by (vm_compute; reflexivity).
  assert (Hinit : (NewsletterAgents_init (surroundings := no_writer_world) keyed_environ
                     (Some "k-123") (initial () ["AI"])).1
                  = Raised (Exn "ValueError" "no API key"))
    by (vm_compute; reflexivity).
  split; [exact Hinit|].
  destruct (constructor_failure_ends_the_process (surroundings := no_writer_world)
              keyed_environ ["main.py"] (initial () ["AI"]) "k-123" _
              Hkey ltac:(discriminate) Hinit)
    as (Hout & _ & _ & Hprompts & _).
  split; [exact Hout | exact Hprompts].
Defined.

Lemma unrenderable_text_stops_the_run_witness :
  build_search_summary (surroundings := numeric_world)
    (search_answer (surroundings := numeric_world)
       (short_search (primary_search_input "AI")))
    (search_answer (surroundings := numeric_world)
       (short_search (secondary_search_input "AI")))
  = Ok sample_digest ∧
  oversized huge = true ∧
  (run_pipeline (surroundings := numeric_world) "AI" (initial () [])).1
  = Raised digits_error ∧
  agent_calls (log (run_pipeline (surroundings := numeric_world)
                      "AI" (initial () [])).2)
  = [Researcher].
Proof.
  assert (Hd : build_search_summary (surroundings := numeric_world)
                 (search_answer (surroundings := numeric_world)
                    (short_search (primary_search_input "AI")))
                 (search_answer (surroundings := numeric_world)
                    (short_search (secondary_search_input "AI")))
               = Ok sample_digest)
    by (vm_compute; reflexivity).
  assert (Hhuge : oversized huge = true) by (vm_compute; reflexivity).
  assert (Hcontent : extract_content (reply (PInt huge)) = PInt huge)
    by (vm_compute; reflexivity).
  split; [exact Hd|]. split; [exact Hhuge|].
  destruct (unrenderable_text_stops_the_run (surroundings := numeric_world)
              "AI" (initial () []) sample_digest digits_error Hd)
    as (Hresearch & _ & _ & Hover).
  exact (Hresearch () (reply (PInt huge)) eq_refl eq_refl
           (Hover (reply (PInt huge)) huge Hcontent Hhuge)).
Defined.
